(** * The todos API of [examples/dockerfiles/todos-api-flask/app.py]

    A shallow embedding of the Flask handlers and of the two module globals
    they share, [todos] and [next_id], followed by the properties of the
    store that the specification states.

    Conventions.
    - Python dictionaries are finite maps ([gmap]); a todo is the dictionary
      the source builds, with its six string keys.  [GET /todos] lists the
      values in the order of the map, where the source lists them in
      insertion order; nothing below depends on that order.
    - A request body is whatever [request.get_json()] yields: any JSON value,
      or a [BadRequest] when the bytes do not parse.
    - Python exceptions are values of [exn]; a handler is a computation in the
      monad [M], which threads the store, stops at the first exception (the
      store keeps the writes made so far) and collects the operation names
      handed to [log_operation].
    - Every [datetime.utcnow()] whose value reaches the store or the response
      is an argument of the handler that makes the call, in call order. *)

From stdpp Require Import gmap strings list fin_maps pretty.
From Stdlib Require Import ZArith SpecFloat Sorted Ascii.

Local Set Warnings "-register-all".
Local Open Scope Z_scope.

(** ** JSON values, as [json.loads] builds them *)

Inductive json :=
| JNull
| JBool (b : bool)
| JInt (z : Z)
| JFloat (f : spec_float)
| JStr (s : string)
| JArr (l : list json)
| JObj (d : gmap string json).

(** ** Python exceptions the handlers can meet *)

Inductive exn :=
| BadRequest (description : string)   (* werkzeug HTTPException, code 400 *)
| TypeError
| KeyError
| AttributeError.

Definition result (A : Type) : Type := (exn + A)%type.

(** ** The Python operators used on the request body *)

Module Py.

(** [bool(data)], as in [not data]. *)
Definition truthy (data : json) : bool :=
  match data with
  | JNull => false
  | JBool b => b
  | JInt z => negb (z =? 0)
  | JFloat f => match f with S754_zero _ => false | _ => true end
  | JStr s => negb (bool_decide (s = EmptyString))
  | JArr l => negb (bool_decide (l = []))
  | JObj d => negb (bool_decide (d = ∅))
  end.

(** [key == x] for a string [key] and a JSON value [x]. *)
Definition str_eq (key : string) (x : json) : bool :=
  match x with
  | JStr s => bool_decide (s = key)
  | _ => false
  end.

(** [key in s] on two strings: substring search. *)
Definition substring_of (key s : string) : bool :=
  match String.index 0 key s with
  | Some _ => true
  | None => false
  end.

(** [key in data]: key membership on a dict, element membership on a list,
    substring search on a string, [TypeError] on anything else. *)
Definition contains (key : string) (data : json) : result bool :=
  match data with
  | JObj d => inr (bool_decide (is_Some (d !! key)))
  | JArr l => inr (existsb (str_eq key) l)
  | JStr s => inr (substring_of key s)
  | JNull | JBool _ | JInt _ | JFloat _ => inl TypeError
  end.

(** [data[key]] with a string [key]. *)
Definition getitem (data : json) (key : string) : result json :=
  match data with
  | JObj d => match d !! key with
              | Some v => inr v
              | None => inl KeyError
              end
  | _ => inl TypeError
  end.

(** [data.get(key, dflt)]. *)
Definition get (data : json) (key : string) (dflt : json) : result json :=
  match data with
  | JObj d => inr (default dflt (d !! key))
  | _ => inl AttributeError
  end.

End Py.

(** ** [datetime.utcnow().isoformat() + 'Z'] *)

Record datetime := mk_datetime {
  year : Z; month : Z; day : Z;
  hour : Z; minute : Z; second : Z;
  microsecond : Z
}.

Fixpoint zeros (n : nat) : string :=
  match n with
  | O => EmptyString
  | S n' => "0" +:+ zeros n'
  end.

(** ["%0<width>d" % z] for a non-negative [z]. *)
Definition zfill (width : nat) (z : Z) : string :=
  let digits := pretty z in
  zeros (width - String.length digits) +:+ digits.

(** [datetime.isoformat]: the fraction is printed only when it is not zero. *)
Definition isoformat (t : datetime) : string :=
  zfill 4 (year t) +:+ "-" +:+ zfill 2 (month t) +:+ "-" +:+ zfill 2 (day t)
  +:+ "T" +:+ zfill 2 (hour t) +:+ ":" +:+ zfill 2 (minute t)
  +:+ ":" +:+ zfill 2 (second t)
  +:+ (if microsecond t =? 0 then EmptyString else "." +:+ zfill 6 (microsecond t)).

Definition timestamp (t : datetime) : json := JStr (isoformat t +:+ "Z").

(** Chronological order of naive datetimes: field by field, as Python
    compares them. *)
Definition dt_fields (t : datetime) : list Z :=
  [year t; month t; day t; hour t; minute t; second t; microsecond t].

Fixpoint lex_compare (a b : list Z) : comparison :=
  match a, b with
  | [], [] => Eq
  | [], _ :: _ => Lt
  | _ :: _, [] => Gt
  | x :: a', y :: b' =>
      match x ?= y with
      | Eq => lex_compare a' b'
      | c => c
      end
  end.

Definition dt_le (a b : datetime) : Prop :=
  lex_compare (dt_fields a) (dt_fields b) <> Gt.

(** ** The in-memory store: the globals [todos] and [next_id] *)

Abbreviation todo := (gmap string json).

Record store := mk_store {
  todos : gmap Z todo;
  next_id : Z
}.

Definition initial : store := {| todos := ∅; next_id := 1 |}.

(** ** Requests and responses *)

(** What the bytes of the body parse to.  [request.get_json()] is only called
    on a request whose content type is JSON; on bytes that do not parse it
    raises [BadRequest] with the parser's description. *)
Inductive body :=
| Unparsable (description : string)
| Parsed (data : json).

Record request := mk_request {
  is_json : bool;    (* [request.is_json]: the content type is JSON *)
  payload : body
}.

(** The pair [jsonify(...), status] a view returns. *)
Record response := mk_response {
  content : json;
  status : Z
}.

(** ** The handler monad *)

Definition M (A : Type) : Type := store -> result A * store * list string.

#[global] Instance M_ret : MRet M := fun A (a : A) s => (inr a, s, []).

#[global] Instance M_bind : MBind M := fun A B (k : A -> M B) (m : M A) s =>
  match m s with
  | (inl e, s', l) => (inl e, s', l)
  | (inr a, s', l) =>
      match k a s' with
      | (r, s'', l') => (r, s'', l ++ l')
      end
  end.

(** Evaluate a Python expression that may raise. *)
Definition eval {A} (r : result A) : M A := fun s => (r, s, []).

Definition read_todos : M (gmap Z todo) := fun s => (inr (todos s), s, []).
Definition read_next_id : M Z := fun s => (inr (next_id s), s, []).
Definition write_todos (m : gmap Z todo) : M unit :=
  fun s => (inr tt, {| todos := m; next_id := next_id s |}, []).
Definition write_next_id (n : Z) : M unit :=
  fun s => (inr tt, {| todos := todos s; next_id := n |}, []).

(** [log_operation(operation, ...)]: writes one record to the logger and
    touches neither the store nor the response; the embedding keeps the
    operation name. *)
Definition log_operation (operation : string) : M unit :=
  fun s => (inr tt, s, [operation]).

(** [request.get_json()]. *)
Definition get_json (req : request) : M json :=
  match payload req with
  | Unparsable description => eval (inl (BadRequest description))
  | Parsed data => eval (inr data)
  end.

(** [todos[todo_id][key] = v]: the inner dictionary is updated in place. *)
Definition set_field (todo_id : Z) (key : string) (v : json) : M unit :=
  ts ← read_todos;
  match ts !! todo_id with
  | None => eval (inl KeyError)
  | Some t => write_todos (<[todo_id := <[key := v]> t]> ts)
  end.

Definition error_body (message : string) : json :=
  JObj {[ "error" := JStr message ]}.

Definition not_found (todo_id : Z) : json :=
  error_body ("Todo with id " +:+ pretty todo_id +:+ " not found").

(** ** The views *)

(** [GET /todos] *)
Definition get_todos : M response :=
  ts ← read_todos;
  let todos_list := (map_to_list ts).*2 in
  log_operation "get_all_todos";;
  mret {| content := JObj {[ "todos" := JArr (JObj <$> todos_list);
                             "count" := JInt (Z.of_nat (length todos_list)) ]};
          status := 200 |}.

(** [GET /todos/<int:todo_id>] *)
Definition get_todo (todo_id : Z) : M response :=
  ts ← read_todos;
  match ts !! todo_id with
  | None =>
      log_operation "get_todo_not_found";;
      mret {| content := not_found todo_id; status := 404 |}
  | Some t =>
      log_operation "get_todo";;
      mret {| content := JObj t; status := 200 |}
  end.

(** [POST /todos]; [now1] and [now2] are the clock readings of lines 178 and
    179, in that order. *)
Definition create_todo (req : request) (now1 now2 : datetime) : M response :=
  if negb (is_json req) then
    log_operation "create_todo_invalid_content_type";;
    mret {| content := error_body "Content-Type must be application/json";
            status := 400 |}
  else
    data ← get_json req;
    missing ← eval (if negb (Py.truthy data) then inr true
                    else match Py.contains "title" data with
                         | inl e => inl e
                         | inr b => inr (negb b)
                         end);
    if (missing : bool) then
      log_operation "create_todo_missing_title";;
      mret {| content := error_body "Missing required field: title";
              status := 400 |}
    else
      n ← read_next_id;
      title ← eval (Py.getitem data "title");
      description ← eval (Py.get data "description" (JStr EmptyString));
      completed ← eval (Py.get data "completed" (JBool false));
      let t : todo := {[ "id" := JInt n;
                         "title" := title;
                         "description" := description;
                         "completed" := completed;
                         "created_at" := timestamp now1;
                         "updated_at" := timestamp now2 ]} in
      n ← read_next_id;
      ts ← read_todos;
      write_todos (<[n := t]> ts);;
      log_operation "create_todo";;
      n ← read_next_id;
      write_next_id (n + 1);;
      mret {| content := JObj t; status := 201 |}.

(** [if key in data: todos[todo_id][key] = data[key]] *)
Definition copy_field (todo_id : Z) (key : string) (data : json) : M unit :=
  present ← eval (Py.contains key data);
  if (present : bool) then
    v ← eval (Py.getitem data key);
    set_field todo_id key v
  else mret tt.

(** [PUT /todos/<int:todo_id>]; [now] is the clock reading of line 211. *)
Definition update_todo (todo_id : Z) (req : request) (now : datetime) : M response :=
  ts ← read_todos;
  if bool_decide (ts !! todo_id = None) then
    log_operation "update_todo_not_found";;
    mret {| content := not_found todo_id; status := 404 |}
  else if negb (is_json req) then
    log_operation "update_todo_invalid_content_type";;
    mret {| content := error_body "Content-Type must be application/json";
            status := 400 |}
  else
    data ← get_json req;
    copy_field todo_id "title" data;;
    copy_field todo_id "description" data;;
    copy_field todo_id "completed" data;;
    set_field todo_id "updated_at" (timestamp now);;
    log_operation "update_todo";;
    ts ← read_todos;
    t ← eval (match ts !! todo_id with Some t => inr t | None => inl KeyError end);
    mret {| content := JObj t; status := 200 |}.

(** [PATCH /todos/<int:todo_id>]; [now] is the clock reading of line 239. *)
Definition patch_todo (todo_id : Z) (req : request) (now : datetime) : M response :=
  ts ← read_todos;
  if bool_decide (ts !! todo_id = None) then
    log_operation "patch_todo_not_found";;
    mret {| content := not_found todo_id; status := 404 |}
  else if negb (is_json req) then
    log_operation "patch_todo_invalid_content_type";;
    mret {| content := error_body "Content-Type must be application/json";
            status := 400 |}
  else
    data ← get_json req;
    copy_field todo_id "title" data;;
    copy_field todo_id "description" data;;
    copy_field todo_id "completed" data;;
    set_field todo_id "updated_at" (timestamp now);;
    log_operation "patch_todo";;
    ts ← read_todos;
    t ← eval (match ts !! todo_id with Some t => inr t | None => inl KeyError end);
    mret {| content := JObj t; status := 200 |}.

(** [DELETE /todos/<int:todo_id>] *)
Definition delete_todo (todo_id : Z) : M response :=
  ts ← read_todos;
  match ts !! todo_id with
  | None =>
      log_operation "delete_todo_not_found";;
      mret {| content := not_found todo_id; status := 404 |}
  | Some deleted_todo =>
      write_todos (delete todo_id ts);;
      log_operation "delete_todo";;
      mret {| content := JObj {[ "message" := JStr "Todo deleted successfully";
                                 "todo" := JObj deleted_todo ]};
              status := 200 |}
  end.

(** ** The application: routing, the error handler and the two hooks *)

(** The routes under [/todos].  The [int] converter of the routes only lets
    non-negative ids through; the views are embedded for every integer. *)
Inductive call :=
| GET_todos
| GET_todo (todo_id : Z)
| POST_todos (req : request) (now1 now2 : datetime)
| PUT_todo (todo_id : Z) (req : request) (now : datetime)
| PATCH_todo (todo_id : Z) (req : request) (now : datetime)
| DELETE_todo (todo_id : Z).

Definition dispatch (c : call) : M response :=
  match c with
  | GET_todos => get_todos
  | GET_todo todo_id => get_todo todo_id
  | POST_todos req now1 now2 => create_todo req now1 now2
  | PUT_todo todo_id req now => update_todo todo_id req now
  | PATCH_todo todo_id req now => patch_todo todo_id req now
  | DELETE_todo todo_id => delete_todo todo_id
  end.

(** [@app.errorhandler(Exception)]: an [HTTPException] keeps its code and
    description, anything else becomes a 500. *)
Definition handle_error (error : exn) : M response :=
  match error with
  | BadRequest description =>
      log_operation "http_error";;
      mret {| content := error_body description; status := 400 |}
  | _ => mret {| content := error_body "Internal server error"; status := 500 |}
  end.

(** One request, from [log_request] to [log_response]. *)
Definition handle (c : call) (s : store) : response * store * list string :=
  match (log_operation "incoming_request";; dispatch c) s with
  | (inr r, s', l) => (r, s', l ++ ["outgoing_response"])
  | (inl e, s', l) =>
      match handle_error e s' with
      | (inr r, s'', l') => (r, s'', l ++ l' ++ ["outgoing_response"])
      | (inl _, s'', l') =>
          ({| content := error_body "Internal server error"; status := 500 |},
           s'', l ++ l')
      end
  end.

Definition reply (c : call) (s : store) : response := (handle c s).1.1.
Definition after (c : call) (s : store) : store := (handle c s).1.2.
Definition logged (c : call) (s : store) : list string := (handle c s).2.

(** A sequence of requests, served one after the other. *)
Fixpoint run (s : store) (cs : list call) : store * list (call * response) :=
  match cs with
  | [] => (s, [])
  | c :: cs' =>
      let '(s', tr) := run (after c s) cs' in
      (s', (c, reply c s) :: tr)
  end.

(** ** Vocabulary of the properties *)

(** The store with the record of [todo_id] replaced by [t]. *)
Definition with_todo (s : store) (todo_id : Z) (t : todo) : store :=
  {| todos := <[todo_id := t]> (todos s); next_id := next_id s |}.

(** What an object body [d] does to one key of a record. *)
Definition merge_key (d : gmap string json) (key : string) (t : todo) : todo :=
  match d !! key with
  | Some v => <[key := v]> t
  | None => t
  end.

(** The record an update leaves behind for an object body [d]. *)
Definition merged (d : gmap string json) (now : datetime) (old : todo) : todo :=
  <["updated_at" := timestamp now]>
    (merge_key d "completed" (merge_key d "description" (merge_key d "title" old))).

(** The record a create builds from an object body [d] carrying [title]. *)
Definition new_todo (n : Z) (title : json) (d : gmap string json)
    (now1 now2 : datetime) : todo :=
  {[ "id" := JInt n;
     "title" := title;
     "description" := default (JStr EmptyString) (d !! "description");
     "completed" := default (JBool false) (d !! "completed");
     "created_at" := timestamp now1;
     "updated_at" := timestamp now2 ]}.

(** Every key of the mapping lies below the counter. *)
Definition keys_below (s : store) : Prop :=
  forall k, is_Some (todos s !! k) -> k < next_id s.

(** The id a trace entry assigned: the [id] of the record a 201 returns. *)
Definition created_id (e : call * response) : option Z :=
  match e.1 with
  | POST_todos _ _ _ =>
      if status e.2 =? 201 then
        match content e.2 with
        | JObj t => match t !! "id" with
                    | Some (JInt n) => Some n
                    | _ => None
                    end
        | _ => None
        end
      else None
  | _ => None
  end.

Definition ids_assigned (tr : list (call * response)) : list Z :=
  omap created_id tr.

Definition is_create (e : call * response) : bool :=
  match e.1 with
  | POST_todos _ _ _ => status e.2 =? 201
  | _ => false
  end.

Definition is_delete (e : call * response) : bool :=
  match e.1 with
  | DELETE_todo _ => status e.2 =? 200
  | _ => false
  end.

Fixpoint tally (p : call * response -> bool) (tr : list (call * response)) : Z :=
  match tr with
  | [] => 0
  | e :: tr' => (if p e then 1 else 0) + tally p tr'
  end.

(** The [count] field of the body [GET /todos] returns. *)
Definition listed_count (r : response) : option Z :=
  match content r with
  | JObj d => match d !! "count" with
              | Some (JInt n) => Some n
              | _ => None
              end
  | _ => None
  end.

(** What one request can do to the store: nothing, or one of the three
    writes. *)
Inductive effect (s : store) : call -> response -> store -> Prop :=
| effect_none c r :
    is_create (c, r) = false ->
    is_delete (c, r) = false ->
    effect s c r s
| effect_create req now1 now2 t :
    t !! "id" = Some (JInt (next_id s)) ->
    effect s (POST_todos req now1 now2)
      {| content := JObj t; status := 201 |}
      {| todos := <[next_id s := t]> (todos s); next_id := next_id s + 1 |}
| effect_put todo_id req now old new :
    todos s !! todo_id = Some old ->
    effect s (PUT_todo todo_id req now)
      {| content := JObj new; status := 200 |} (with_todo s todo_id new)
| effect_patch todo_id req now old new :
    todos s !! todo_id = Some old ->
    effect s (PATCH_todo todo_id req now)
      {| content := JObj new; status := 200 |} (with_todo s todo_id new)
| effect_delete todo_id t :
    todos s !! todo_id = Some t ->
    effect s (DELETE_todo todo_id)
      {| content := JObj {[ "message" := JStr "Todo deleted successfully";
                            "todo" := JObj t ]};
         status := 200 |}
      {| todos := delete todo_id (todos s); next_id := next_id s |}.

(** The value a request body gives to [key]: bodies that are not objects
    have no keys. *)
Definition body_key (req : request) (key : string) : option json :=
  match payload req with
  | Parsed (JObj d) => d !! key
  | _ => None
  end.

(** The two stamps of a returned record agree. *)
Definition stamps_equal (r : response) : Prop :=
  match content r with
  | JObj t => t !! "created_at" = t !! "updated_at"
  | _ => False
  end.

(** A [title] that is missing or the empty string. *)
Definition title_absent_or_empty (d : gmap string json) : Prop :=
  d !! "title" = None \/ d !! "title" = Some (JStr EmptyString).

(** The create contract in the words of the specification: a JSON request
    whose title is absent or empty is refused with 400 and creates nothing,
    any other request is answered 201. *)
Definition create_contract_as_stated
    (req : request) (now1 now2 : datetime) (s : store) : Prop :=
  let refused :=
    is_json req = true
    /\ exists d, payload req = Parsed (JObj d) /\ title_absent_or_empty d in
  (refused ->
     status (reply (POST_todos req now1 now2) s) = 400
     /\ after (POST_todos req now1 now2) s = s)
  /\ (~ refused -> status (reply (POST_todos req now1 now2) s) = 201).

(** "[updated_at] never decreases", in the words of the specification: when
    the request is answered 200 and the stamps of the record before and
    after it are those of the readings [ta] and [tb], [ta] is not later
    than [tb]. *)
Definition updated_at_never_decreases (c : call) (todo_id : Z) (s : store) : Prop :=
  status (reply c s) = 200 ->
  forall old new ta tb,
    todos s !! todo_id = Some old ->
    todos (after c s) !! todo_id = Some new ->
    old !! "updated_at" = Some (timestamp ta) ->
    new !! "updated_at" = Some (timestamp tb) ->
    dt_le ta tb.

(** ** Sample data *)

Definition noon : datetime := mk_datetime 2024 1 2 12 0 0 0.
Definition just_after_noon : datetime := mk_datetime 2024 1 2 12 0 0 17.

Definition json_request (data : json) : request :=
  {| is_json := true; payload := Parsed data |}.
Definition text_request (data : json) : request :=
  {| is_json := false; payload := Parsed data |}.

Definition buy_milk : json := JObj {[ "title" := JStr "Buy milk" ]}.
Definition empty_title : json := JObj {[ "title" := JStr EmptyString ]}.
Definition empty_object : json := JObj ∅.
Definition completed_true : json := JObj {[ "completed" := JBool true ]}.

(** The store after the first todo has been created. *)
Definition one_todo : store :=
  after (POST_todos (json_request buy_milk) noon noon) initial.

Definition milk_record : todo :=
  {[ "id" := JInt 1;
     "title" := JStr "Buy milk";
     "description" := JStr EmptyString;
     "completed" := JBool false;
     "created_at" := JStr "2024-01-02T12:00:00Z";
     "updated_at" := JStr "2024-01-02T12:00:00Z" ]}.

(** The store after todo 1 has been patched once, just after noon. *)
Definition patched_once : store :=
  after (PATCH_todo 1 (json_request empty_object) just_after_noon) one_todo.

(** ** The views outside [/todos] *)

(** [GET /health]; [now] is the clock reading of line 132. *)
Definition health_check (now : datetime) : M response :=
  ts ← read_todos;
  let health_data : gmap string json :=
    {[ "status" := JStr "healthy";
       "timestamp" := timestamp now;
       "todos_count" := JInt (Z.of_nat (size ts)) ]} in
  log_operation "health_check";;
  mret {| content := JObj health_data; status := 200 |}.

(** [GET /]; [now] is the clock reading of line 272. *)
Definition root (now : datetime) : M response :=
  let api_info : gmap string json :=
    {[ "name" := JStr "Todo CRUD API";
       "version" := JStr "1.0.0";
       "endpoints" := JObj {[ "health" := JStr "GET /health";
                              "list_todos" := JStr "GET /todos";
                              "get_todo" := JStr "GET /todos/:id";
                              "create_todo" := JStr "POST /todos";
                              "update_todo" := JStr "PUT /todos/:id";
                              "patch_todo" := JStr "PATCH /todos/:id";
                              "delete_todo" := JStr "DELETE /todos/:id" ]};
       "timestamp" := timestamp now ]} in
  log_operation "api_info_requested";;
  mret {| content := JObj api_info; status := 200 |}.

(** One request to any view, from [log_request] to [log_response]: what
    [handle] does around [dispatch]. *)
Definition serve (view : M response) (s : store) : response * store * list string :=
  match (log_operation "incoming_request";; view) s with
  | (inr r, s', l) => (r, s', l ++ ["outgoing_response"])
  | (inl e, s', l) =>
      match handle_error e s' with
      | (inr r, s'', l') => (r, s'', l ++ l' ++ ["outgoing_response"])
      | (inl _, s'', l') =>
          ({| content := error_body "Internal server error"; status := 500 |},
           s'', l ++ l')
      end
  end.

(** ** Vocabulary of the further properties *)

(** The id a request names in its path, for the three writes on one id. *)
Definition writes_to (c : call) (k : Z) : Prop :=
  match c with
  | PUT_todo todo_id _ _ | PATCH_todo todo_id _ _ | DELETE_todo todo_id => todo_id = k
  | _ => False
  end.

(** The id a request names in its path, if it names one. *)
Definition path_id (c : call) : option Z :=
  match c with
  | GET_todo todo_id | PUT_todo todo_id _ _ | PATCH_todo todo_id _ _
  | DELETE_todo todo_id => Some todo_id
  | GET_todos | POST_todos _ _ _ => None
  end.

Definition todo_keys : gset string :=
  {[ "id"; "title"; "description"; "completed"; "created_at"; "updated_at" ]}.

(** The counter is positive, and every stored record has the six keys of a
    todo, carries its own key as [id], and sits at a positive key below the
    counter. *)
Definition well_formed (s : store) : Prop :=
  1 <= next_id s
  /\ forall k t,
       todos s !! k = Some t ->
       dom t = todo_keys /\ t !! "id" = Some (JInt k) /\ 1 <= k < next_id s.

(** The [todos_count] field of the body [GET /health] returns. *)
Definition health_count (r : response) : option Z :=
  match content r with
  | JObj d => match d !! "todos_count" with
              | Some (JInt n) => Some n
              | _ => None
              end
  | _ => None
  end.

(** The [todos] array of the body [GET /todos] returns. *)
Definition listed_todos (r : response) : option (list json) :=
  match content r with
  | JObj d => match d !! "todos" with
              | Some (JArr l) => Some l
              | _ => None
              end
  | _ => None
  end.

(** JSON scalars on which [in] raises. *)
Definition is_scalar (data : json) : bool :=
  match data with
  | JNull | JBool _ | JInt _ | JFloat _ => true
  | _ => false
  end.

(** [key in data] for a body that is a string or a list. *)
Definition mentions (key : string) (data : json) : bool :=
  match data with
  | JStr str => Py.substring_of key str
  | JArr l => existsb (Py.str_eq key) l
  | _ => false
  end.

(** ** Reading a stamp back *)

(** The value of a decimal digit. *)
Definition digit_of (c : ascii) : option Z :=
  (if decide (c = "0") then Some 0 else if decide (c = "1") then Some 1
   else if decide (c = "2") then Some 2 else if decide (c = "3") then Some 3
   else if decide (c = "4") then Some 4 else if decide (c = "5") then Some 5
   else if decide (c = "6") then Some 6 else if decide (c = "7") then Some 7
   else if decide (c = "8") then Some 8 else if decide (c = "9") then Some 9
   else None)%char.

(** Read the digits at the head of [s] as a number, most significant first,
    and return it with what follows them. *)
Fixpoint read_number (acc : Z) (s : string) : Z * string :=
  match s with
  | EmptyString => (acc, s)
  | String c s' =>
      match digit_of c with
      | Some d => read_number (acc * 10 + d) s'
      | None => (acc, s)
      end
  end.

Definition expect (c : ascii) (s : string) : option string :=
  match s with
  | String c' s' => if decide (c = c') then Some s' else None
  | EmptyString => None
  end.

(** The reading of the clock that a stamp was printed from. *)
Definition parse_timestamp (s : string) : option datetime :=
  let '(y, s) := read_number 0 s in
  s ← expect "-" s;
  let '(mo, s) := read_number 0 s in
  s ← expect "-" s;
  let '(d, s) := read_number 0 s in
  s ← expect "T" s;
  let '(h, s) := read_number 0 s in
  s ← expect ":" s;
  let '(mi, s) := read_number 0 s in
  s ← expect ":" s;
  let '(sec, s) := read_number 0 s in
  match expect "." s with
  | Some s =>
      let '(us, s) := read_number 0 s in
      _ ← expect "Z" s; Some (mk_datetime y mo d h mi sec us)
  | None =>
      _ ← expect "Z" s; Some (mk_datetime y mo d h mi sec 0)
  end.

(** A reading of the clock has no negative field. *)
Definition clock_reading (t : datetime) : Prop := Forall (Z.le 0) (dt_fields t).

(** * Properties *)

(** ** Running the monad *)

Ltac unfold_monad :=
  cbv [mbind mret M_bind M_ret eval read_todos read_next_id write_todos
       write_next_id log_operation get_json];
  cbn [todos next_id is_json payload content status fst snd negb].

Ltac unfold_views :=
  cbv [handle dispatch get_todos get_todo create_todo update_todo patch_todo
       delete_todo handle_error];
  unfold_monad.

(** One step of a proof that compares two views on the same store. *)
Ltac next_step :=
  match goal with
  | |- context [match copy_field ?i ?k ?d ?s with _ => _ end] =>
      destruct (copy_field i k d s) as [[[?|[]] ?] ?]
  | |- context [match set_field ?i ?k ?v ?s with _ => _ end] =>
      destruct (set_field i k v s) as [[[?|[]] ?] ?]
  | |- context [match todos ?s !! ?i with _ => _ end] =>
      destruct (todos s !! i)
  | |- context [match ?e with BadRequest _ => _ | _ => _ end] =>
      destruct e
  end; cbn [fst snd]; try done.

Lemma store_eta (s : store) : {| todos := todos s; next_id := next_id s |} = s.
Proof. by destruct s. Qed.

Lemma with_todo_lookup s todo_id t :
  todos (with_todo s todo_id t) !! todo_id = Some t.
Proof. apply lookup_insert_eq. Qed.

Lemma with_todo_twice s todo_id t t' :
  with_todo (with_todo s todo_id t) todo_id t' = with_todo s todo_id t'.
Proof. unfold with_todo; cbn. by rewrite insert_insert_eq. Qed.

Lemma with_todo_same s todo_id t :
  todos s !! todo_id = Some t -> with_todo s todo_id t = s.
Proof. intros H. unfold with_todo. rewrite insert_id by done. apply store_eta. Qed.

Lemma set_field_present todo_id key v s t :
  todos s !! todo_id = Some t ->
  set_field todo_id key v s = (inr tt, with_todo s todo_id (<[key := v]> t), []).
Proof. intros H. unfold set_field. unfold_monad. by rewrite H. Qed.

(** On an object body a field copy never raises. *)
Lemma copy_field_object todo_id key d s t :
  todos s !! todo_id = Some t ->
  copy_field todo_id key (JObj d) s
  = (inr tt, with_todo s todo_id (merge_key d key t), []).
Proof.
  intros H. unfold copy_field, merge_key, Py.contains, Py.getitem. unfold_monad.
  destruct (d !! key) as [v|] eqn:Hk.
  - rewrite bool_decide_true by eauto.
    by rewrite (set_field_present _ _ _ _ _ H).
  - rewrite bool_decide_false by (intros [? ?]; done).
    by rewrite with_todo_same.
Qed.

(** On any other body it raises before the record is written, or finds
    nothing to copy. *)
Lemma copy_field_other todo_id key data s :
  (forall d, data <> JObj d) ->
  copy_field todo_id key data s = (inl TypeError, s, [])
  \/ copy_field todo_id key data s = (inr tt, s, []).
Proof.
  intros Hd. unfold copy_field, Py.contains, Py.getitem. unfold_monad.
  destruct data as [| | | |str|l|d]; try (by left); try (by destruct (Hd d)).
  - destruct (Py.substring_of key str); [by left | by right].
  - destruct (existsb (Py.str_eq key) l); [by left | by right].
Qed.

(** ** The views, case by case *)

Lemma get_todos_reply s :
  reply GET_todos s
  = {| content := JObj {[ "todos" := JArr (JObj <$> (map_to_list (todos s)).*2);
                          "count" := JInt (Z.of_nat (size (todos s))) ]};
       status := 200 |}
  /\ after GET_todos s = s.
Proof.
  unfold reply, after. unfold_views.
  by rewrite length_fmap, length_map_to_list.
Qed.

Lemma get_todo_absent todo_id s :
  todos s !! todo_id = None ->
  reply (GET_todo todo_id) s = {| content := not_found todo_id; status := 404 |}
  /\ after (GET_todo todo_id) s = s.
Proof. intros H. unfold reply, after. unfold_views. by rewrite H. Qed.

Lemma get_todo_present todo_id s t :
  todos s !! todo_id = Some t ->
  reply (GET_todo todo_id) s = {| content := JObj t; status := 200 |}
  /\ after (GET_todo todo_id) s = s.
Proof. intros H. unfold reply, after. unfold_views. by rewrite H. Qed.

Lemma delete_todo_absent todo_id s :
  todos s !! todo_id = None ->
  reply (DELETE_todo todo_id) s = {| content := not_found todo_id; status := 404 |}
  /\ after (DELETE_todo todo_id) s = s.
Proof. intros H. unfold reply, after. unfold_views. by rewrite H. Qed.

Lemma delete_todo_present todo_id s t :
  todos s !! todo_id = Some t ->
  reply (DELETE_todo todo_id) s
  = {| content := JObj {[ "message" := JStr "Todo deleted successfully";
                          "todo" := JObj t ]};
       status := 200 |}
  /\ after (DELETE_todo todo_id) s
     = {| todos := delete todo_id (todos s); next_id := next_id s |}.
Proof. intros H. unfold reply, after. unfold_views. by rewrite H. Qed.

Lemma create_todo_not_json req now1 now2 s :
  is_json req = false ->
  reply (POST_todos req now1 now2) s
  = {| content := error_body "Content-Type must be application/json"; status := 400 |}
  /\ after (POST_todos req now1 now2) s = s.
Proof. intros H. unfold reply, after. unfold_views. by rewrite H. Qed.

Lemma create_todo_unparsable req now1 now2 s description :
  is_json req = true ->
  payload req = Unparsable description ->
  reply (POST_todos req now1 now2) s
  = {| content := error_body description; status := 400 |}
  /\ after (POST_todos req now1 now2) s = s.
Proof. intros H Hp. unfold reply, after. unfold_views. by rewrite H, Hp. Qed.

Lemma create_todo_falsy req now1 now2 s data :
  is_json req = true ->
  payload req = Parsed data ->
  Py.truthy data = false ->
  reply (POST_todos req now1 now2) s
  = {| content := error_body "Missing required field: title"; status := 400 |}
  /\ after (POST_todos req now1 now2) s = s.
Proof.
  intros H Hp Ht. unfold reply, after. unfold_views. by rewrite H, Hp, Ht.
Qed.

Lemma object_with_key_truthy (d : gmap string json) key v :
  d !! key = Some v -> Py.truthy (JObj d) = true.
Proof.
  intros H. unfold Py.truthy. rewrite bool_decide_false; [done|].
  intros ->. by rewrite lookup_empty in H.
Qed.

Lemma create_todo_no_title req now1 now2 s d :
  is_json req = true ->
  payload req = Parsed (JObj d) ->
  d !! "title" = None ->
  reply (POST_todos req now1 now2) s
  = {| content := error_body "Missing required field: title"; status := 400 |}
  /\ after (POST_todos req now1 now2) s = s.
Proof.
  intros H Hp Ht. unfold reply, after. unfold_views. rewrite H, Hp. cbn [negb].
  destruct (Py.truthy (JObj d)); cbn [negb]; [|done].
  unfold Py.contains. rewrite Ht.
  by rewrite bool_decide_false by (intros [? ?]; done).
Qed.

Lemma create_todo_object req now1 now2 s d title :
  is_json req = true ->
  payload req = Parsed (JObj d) ->
  d !! "title" = Some title ->
  reply (POST_todos req now1 now2) s
  = {| content := JObj (new_todo (next_id s) title d now1 now2); status := 201 |}
  /\ after (POST_todos req now1 now2) s
     = {| todos := <[next_id s := new_todo (next_id s) title d now1 now2]> (todos s);
          next_id := next_id s + 1 |}.
Proof.
  intros H Hp Ht. unfold reply, after. unfold_views. rewrite H, Hp. cbn [negb].
  rewrite (object_with_key_truthy _ _ _ Ht). cbn [negb].
  unfold Py.contains, Py.getitem, Py.get. rewrite Ht.
  by rewrite bool_decide_true by eauto.
Qed.

(** A body that is not an object is never turned into a record. *)
Lemma create_todo_other req now1 now2 s data :
  is_json req = true ->
  payload req = Parsed data ->
  (forall d, data <> JObj d) ->
  (status (reply (POST_todos req now1 now2) s) = 400
   \/ status (reply (POST_todos req now1 now2) s) = 500)
  /\ after (POST_todos req now1 now2) s = s.
Proof.
  intros H Hp Hd. unfold reply, after. unfold_views. rewrite H, Hp. cbn [negb].
  destruct (Py.truthy data); cbn [negb]; [|by split; [left|]].
  unfold Py.contains, Py.getitem.
  destruct data as [| | | |str|l|d]; try (by split; [right|]);
    try (by destruct (Hd d)).
  - destruct (Py.substring_of "title" str); cbn [negb]; split; auto.
  - destruct (existsb (Py.str_eq "title") l); cbn [negb]; split; auto.
Qed.

Lemma not_object_dec (data : json) :
  (exists d, data = JObj d) \/ (forall d, data <> JObj d).
Proof. destruct data; eauto; right; intros ? ?; discriminate. Qed.

(** Every create either is refused and leaves the store alone, or stores
    the record of an object body under the current counter. *)
Lemma create_todo_outcome req now1 now2 s :
  ((status (reply (POST_todos req now1 now2) s) = 400
    \/ status (reply (POST_todos req now1 now2) s) = 500)
   /\ after (POST_todos req now1 now2) s = s)
  \/ (exists d title,
        is_json req = true /\ payload req = Parsed (JObj d)
        /\ d !! "title" = Some title
        /\ reply (POST_todos req now1 now2) s
           = {| content := JObj (new_todo (next_id s) title d now1 now2);
                status := 201 |}
        /\ after (POST_todos req now1 now2) s
           = {| todos := <[next_id s := new_todo (next_id s) title d now1 now2]>
                           (todos s);
                next_id := next_id s + 1 |}).
Proof.
  destruct (is_json req) eqn:Hj.
  2: { left. destruct (create_todo_not_json req now1 now2 s Hj) as [-> ->]. auto. }
  destruct (payload req) as [description|data] eqn:Hp.
  { left. destruct (create_todo_unparsable req now1 now2 s _ Hj Hp) as [-> ->]. auto. }
  destruct (not_object_dec data) as [[d ->]|Hd].
  2: { left. apply (create_todo_other req now1 now2 s data Hj Hp Hd). }
  destruct (d !! "title") as [title|] eqn:Ht.
  - right. exists d, title. repeat split; try done;
      apply (create_todo_object req now1 now2 s d title Hj Hp Ht).
  - left. destruct (create_todo_no_title req now1 now2 s d Hj Hp Ht) as [-> ->]. auto.
Qed.

(** *** PUT *)

Lemma update_todo_absent todo_id req now s :
  todos s !! todo_id = None ->
  reply (PUT_todo todo_id req now) s
  = {| content := not_found todo_id; status := 404 |}
  /\ after (PUT_todo todo_id req now) s = s.
Proof.
  intros H. unfold reply, after. unfold_views. rewrite H.
  by rewrite bool_decide_true by done.
Qed.

Lemma update_todo_not_json todo_id req now s old :
  todos s !! todo_id = Some old ->
  is_json req = false ->
  reply (PUT_todo todo_id req now) s
  = {| content := error_body "Content-Type must be application/json"; status := 400 |}
  /\ after (PUT_todo todo_id req now) s = s.
Proof.
  intros H Hj. unfold reply, after. unfold_views. rewrite H.
  rewrite bool_decide_false by done. by rewrite Hj.
Qed.

Lemma update_todo_unparsable todo_id req now s old description :
  todos s !! todo_id = Some old ->
  is_json req = true ->
  payload req = Unparsable description ->
  reply (PUT_todo todo_id req now) s
  = {| content := error_body description; status := 400 |}
  /\ after (PUT_todo todo_id req now) s = s.
Proof.
  intros H Hj Hp. unfold reply, after. unfold_views. rewrite H.
  rewrite bool_decide_false by done. by rewrite Hj, Hp.
Qed.

Lemma update_todo_object todo_id req now s old d :
  todos s !! todo_id = Some old ->
  is_json req = true ->
  payload req = Parsed (JObj d) ->
  reply (PUT_todo todo_id req now) s
  = {| content := JObj (merged d now old); status := 200 |}
  /\ after (PUT_todo todo_id req now) s = with_todo s todo_id (merged d now old).
Proof.
  intros H Hj Hp. unfold reply, after. unfold_views. rewrite H.
  rewrite bool_decide_false by done. rewrite Hj, Hp. unfold_monad.
  rewrite (copy_field_object _ _ _ _ _ H). unfold_monad.
  rewrite (copy_field_object _ _ _ _ _ (with_todo_lookup _ _ _)), with_todo_twice.
  unfold_monad.
  rewrite (copy_field_object _ _ _ _ _ (with_todo_lookup _ _ _)), with_todo_twice.
  unfold_monad.
  rewrite (set_field_present _ _ _ _ _ (with_todo_lookup _ _ _)), with_todo_twice.
  unfold_monad.
  by rewrite with_todo_lookup.
Qed.

Lemma update_todo_other todo_id req now s old data :
  todos s !! todo_id = Some old ->
  is_json req = true ->
  payload req = Parsed data ->
  (forall d, data <> JObj d) ->
  (reply (PUT_todo todo_id req now) s
   = {| content := error_body "Internal server error"; status := 500 |}
   /\ after (PUT_todo todo_id req now) s = s)
  \/ (reply (PUT_todo todo_id req now) s
      = {| content := JObj (<["updated_at" := timestamp now]> old); status := 200 |}
      /\ after (PUT_todo todo_id req now) s
         = with_todo s todo_id (<["updated_at" := timestamp now]> old)).
Proof.
  intros H Hj Hp Hd. unfold reply, after. unfold_views. rewrite H.
  rewrite bool_decide_false by done. rewrite Hj, Hp. unfold_monad.
  destruct (copy_field_other todo_id "title" data s Hd) as [-> | ->];
    unfold_monad; [by left|].
  destruct (copy_field_other todo_id "description" data s Hd) as [-> | ->];
    unfold_monad; [by left|].
  destruct (copy_field_other todo_id "completed" data s Hd) as [-> | ->];
    unfold_monad; [by left|].
  rewrite (set_field_present _ _ _ _ _ H). unfold_monad.
  rewrite with_todo_lookup. by right.
Qed.

(** *** PATCH answers as PUT does *)

Lemma put_patch_same todo_id req now s :
  reply (PUT_todo todo_id req now) s = reply (PATCH_todo todo_id req now) s
  /\ after (PUT_todo todo_id req now) s = after (PATCH_todo todo_id req now) s.
Proof.
  unfold reply, after. unfold_views.
  destruct (bool_decide (todos s !! todo_id = None)); [done|].
  destruct (is_json req); [|done].
  destruct (payload req); [done|]. cbn [negb].
  repeat next_step.
Qed.

(** Every update either leaves the store alone or replaces the record of an
    existing id and answers 200 with the new record. *)
Lemma update_todo_outcome todo_id req now s :
  (after (PUT_todo todo_id req now) s = s
   /\ (status (reply (PUT_todo todo_id req now) s) = 404 <-> todos s !! todo_id = None)
   /\ status (reply (PUT_todo todo_id req now) s) <> 200
   /\ status (reply (PUT_todo todo_id req now) s) <> 201)
  \/ (exists old new,
        todos s !! todo_id = Some old
        /\ reply (PUT_todo todo_id req now) s = {| content := JObj new; status := 200 |}
        /\ after (PUT_todo todo_id req now) s = with_todo s todo_id new).
Proof.
  destruct (todos s !! todo_id) as [old|] eqn:H.
  2: { left. destruct (update_todo_absent todo_id req now s H) as [-> ->]. cbn.
       repeat split; done. }
  destruct (is_json req) eqn:Hj.
  2: { left. destruct (update_todo_not_json todo_id req now s old H Hj) as [-> ->].
       cbn. repeat split; done. }
  destruct (payload req) as [description|data] eqn:Hp.
  { left. destruct (update_todo_unparsable todo_id req now s old _ H Hj Hp) as [-> ->].
    cbn. repeat split; done. }
  destruct (not_object_dec data) as [[d ->]|Hd].
  - right. exists old, (merged d now old). split; [done|].
    apply (update_todo_object todo_id req now s old d H Hj Hp).
  - destruct (update_todo_other todo_id req now s old data H Hj Hp Hd)
      as [[-> ->]|[Hr Ha]].
    + left. cbn. repeat split; done.
    + right. eauto.
Qed.

Lemma patch_todo_outcome todo_id req now s :
  (after (PATCH_todo todo_id req now) s = s
   /\ (status (reply (PATCH_todo todo_id req now) s) = 404 <-> todos s !! todo_id = None)
   /\ status (reply (PATCH_todo todo_id req now) s) <> 200
   /\ status (reply (PATCH_todo todo_id req now) s) <> 201)
  \/ (exists old new,
        todos s !! todo_id = Some old
        /\ reply (PATCH_todo todo_id req now) s = {| content := JObj new; status := 200 |}
        /\ after (PATCH_todo todo_id req now) s = with_todo s todo_id new).
Proof.
  destruct (put_patch_same todo_id req now s) as [<- <-].
  apply update_todo_outcome.
Qed.

(** ** One request as a step of the store *)

Lemma new_todo_id n title d now1 now2 :
  new_todo n title d now1 now2 !! "id" = Some (JInt n).
Proof. unfold new_todo. by simplify_map_eq. Qed.

Lemma new_todo_created_at n title d now1 now2 :
  new_todo n title d now1 now2 !! "created_at" = Some (timestamp now1).
Proof. unfold new_todo. by simplify_map_eq. Qed.

Lemma new_todo_updated_at n title d now1 now2 :
  new_todo n title d now1 now2 !! "updated_at" = Some (timestamp now2).
Proof. unfold new_todo. by simplify_map_eq. Qed.

Lemma handle_effect c s : effect s c (reply c s) (after c s).
Proof.
  destruct c as [|todo_id|req now1 now2|todo_id req now|todo_id req now|todo_id].
  - destruct (get_todos_reply s) as [-> ->]. by apply effect_none.
  - destruct (todos s !! todo_id) as [t|] eqn:H.
    + destruct (get_todo_present todo_id s t H) as [-> ->]. by apply effect_none.
    + destruct (get_todo_absent todo_id s H) as [-> ->]. by apply effect_none.
  - destruct (create_todo_outcome req now1 now2 s)
      as [[Hs ->]|(d & title & _ & _ & _ & -> & ->)].
    + apply effect_none; [|done].
      unfold is_create; cbn. by destruct Hs as [-> | ->].
    + apply effect_create, new_todo_id.
  - destruct (update_todo_outcome todo_id req now s)
      as [(-> & _)|(old & new & H & -> & ->)].
    + by apply effect_none.
    + by eapply effect_put.
  - destruct (patch_todo_outcome todo_id req now s)
      as [(-> & _)|(old & new & H & -> & ->)].
    + by apply effect_none.
    + by eapply effect_patch.
  - destruct (todos s !! todo_id) as [t|] eqn:H.
    + destruct (delete_todo_present todo_id s t H) as [-> ->].
      by apply effect_delete.
    + destruct (delete_todo_absent todo_id s H) as [-> ->]. by apply effect_none.
Qed.

Lemma effect_next_id s c r s' :
  effect s c r s' ->
  (created_id (c, r) = None /\ next_id s' = next_id s)
  \/ (created_id (c, r) = Some (next_id s) /\ next_id s' = next_id s + 1).
Proof.
  intros [c' r' Hc _|req now1 now2 t Ht| | |]; try (by left).
  - left. split; [|done]. unfold created_id, is_create in *. cbn in *.
    destruct c'; try done. by rewrite Hc.
  - right. split; [|done]. unfold created_id. cbn. by rewrite Ht.
Qed.

Lemma effect_keys_below s c r s' :
  effect s c r s' -> keys_below s -> keys_below s'.
Proof.
  intros [c' r' _ _|req now1 now2 t _|todo_id req now old new H
         |todo_id req now old new H|todo_id t H] Hs k; cbn; try apply Hs.
  - intros Hk. destruct (decide (k = next_id s)) as [->|Hne]; [lia|].
    rewrite lookup_insert_ne in Hk by done. specialize (Hs k Hk). lia.
  - destruct (decide (k = todo_id)) as [->|Hne]; intros Hk.
    + apply Hs. by rewrite H.
    + rewrite lookup_insert_ne in Hk by done. by apply Hs.
  - destruct (decide (k = todo_id)) as [->|Hne]; intros Hk.
    + apply Hs. by rewrite H.
    + rewrite lookup_insert_ne in Hk by done. by apply Hs.
  - destruct (decide (k = todo_id)) as [->|Hne]; intros Hk.
    + rewrite lookup_delete_eq in Hk. by destruct Hk.
    + rewrite lookup_delete_ne in Hk by done. by apply Hs.
Qed.

Lemma effect_size s c r s' :
  effect s c r s' -> keys_below s ->
  Z.of_nat (size (todos s'))
  = Z.of_nat (size (todos s))
    + (if is_create (c, r) then 1 else 0) - (if is_delete (c, r) then 1 else 0).
Proof.
  intros [c' r' Hc Hd|req now1 now2 t _|todo_id req now old new H
         |todo_id req now old new H|todo_id t H] Hs; cbn.
  - rewrite Hc, Hd. lia.
  - rewrite map_size_insert_None; [lia|].
    destruct (todos s !! next_id s) eqn:Hk; [|done].
    assert (next_id s < next_id s) by (apply Hs; eauto). lia.
  - rewrite map_size_insert_Some by eauto. lia.
  - rewrite map_size_insert_Some by eauto. lia.
  - rewrite map_size_delete_Some by eauto.
    assert (size (todos s) <> 0%nat).
    { apply map_size_non_empty_iff. intros E. by rewrite E, lookup_empty in H. }
    lia.
Qed.

(** ** Sequences of requests *)

Lemma run_cons s c cs :
  (run s (c :: cs)).1 = (run (after c s) cs).1
  /\ (run s (c :: cs)).2 = (c, reply c s) :: (run (after c s) cs).2.
Proof. cbn. by destruct (run (after c s) cs). Qed.

Lemma run_app s cs1 cs2 :
  (run s (cs1 ++ cs2)).1 = (run (run s cs1).1 cs2).1
  /\ (run s (cs1 ++ cs2)).2 = (run s cs1).2 ++ (run (run s cs1).1 cs2).2.
Proof.
  revert s. induction cs1 as [|c cs1 IH]; intros s; [done|].
  rewrite <- app_comm_cons.
  destruct (run_cons s c (cs1 ++ cs2)) as [-> ->].
  destruct (run_cons s c cs1) as [-> ->].
  destruct (IH (after c s)) as [-> ->]. done.
Qed.

Lemma run_ids s cs :
  next_id s <= next_id (run s cs).1
  /\ Forall (fun n => next_id s <= n < next_id (run s cs).1)
            (ids_assigned (run s cs).2)
  /\ StronglySorted Z.lt (ids_assigned (run s cs).2).
Proof.
  revert s. induction cs as [|c cs IH]; intros s.
  { cbn. repeat split; [lia | constructor | constructor]. }
  destruct (run_cons s c cs) as [-> ->].
  destruct (IH (after c s)) as (Hle & Hall & Hsorted).
  unfold ids_assigned in *. cbn [omap list_omap].
  destruct (effect_next_id _ _ _ _ (handle_effect c s)) as [[-> Hn]|[-> Hn]];
    rewrite Hn in *.
  - repeat split; [done | | done].
    eapply Forall_impl; [exact Hall|]. cbn. lia.
  - repeat split; [lia | |].
    + constructor; [lia|]. eapply Forall_impl; [exact Hall|]. cbn. lia.
    + constructor; [done|]. eapply Forall_impl; [exact Hall|]. cbn. lia.
Qed.

Lemma run_keys_below s cs : keys_below s -> keys_below (run s cs).1.
Proof.
  revert s. induction cs as [|c cs IH]; intros s Hs; [done|].
  destruct (run_cons s c cs) as [-> _].
  apply IH. eapply effect_keys_below; [apply handle_effect | done].
Qed.

Lemma run_size s cs :
  keys_below s ->
  Z.of_nat (size (todos (run s cs).1))
  = Z.of_nat (size (todos s))
    + tally is_create (run s cs).2 - tally is_delete (run s cs).2.
Proof.
  revert s. induction cs as [|c cs IH]; intros s Hs; [cbn; lia|].
  destruct (run_cons s c cs) as [-> ->]. cbn [tally].
  pose proof (handle_effect c s) as E.
  rewrite IH by (eapply effect_keys_below; [exact E | done]).
  rewrite (effect_size _ _ _ _ E Hs). lia.
Qed.

Lemma initial_keys_below : keys_below initial.
Proof. intros k [t Ht]. cbn in Ht. by rewrite lookup_empty in Ht. Qed.

(** ** The scenarios of the specification *)

Example scenario_buy_milk :
  reply (POST_todos (json_request buy_milk) noon noon) initial
  = {| content := JObj milk_record; status := 201 |}.
Proof. vm_compute. reflexivity. Qed.

Example scenario_one_todo :
  one_todo = {| todos := {[ 1 := milk_record ]}; next_id := 2 |}.
Proof. vm_compute. reflexivity. Qed.

Example scenario_empty_body :
  reply (POST_todos (json_request empty_object) noon noon) initial
  = {| content := JObj {[ "error" := JStr "Missing required field: title" ]};
       status := 400 |}.
Proof. vm_compute. reflexivity. Qed.

Example scenario_patch_completed :
  reply (PATCH_todo 1 (json_request completed_true) just_after_noon) one_todo
  = {| content := JObj (<["updated_at" := JStr "2024-01-02T12:00:00.000017Z"]>
                          (<["completed" := JBool true]> milk_record));
       status := 200 |}.
Proof. vm_compute. reflexivity. Qed.

Example scenario_logs_differ :
  logged (PUT_todo 1 (json_request completed_true) noon) one_todo
  = ["incoming_request"; "update_todo"; "outgoing_response"]
  /\ logged (PATCH_todo 1 (json_request completed_true) noon) one_todo
     = ["incoming_request"; "patch_todo"; "outgoing_response"].
Proof. split; vm_compute; reflexivity. Qed.

Example scenario_null_body_is_500 :
  reply (PUT_todo 1 (json_request JNull) noon) one_todo
  = {| content := JObj {[ "error" := JStr "Internal server error" ]}; status := 500 |}
  /\ after (PUT_todo 1 (json_request JNull) noon) one_todo = one_todo.
Proof. split; vm_compute; reflexivity. Qed.

(** ** Create *)

(** C1, as the code has it.  A request that is not JSON is refused with 400
    and the content-type message; a JSON object without a [title] key (the
    empty object included) is refused with 400 and the missing-title message;
    neither creates anything.  A JSON object with a [title] key, whatever its
    value, gets the next id: the record is built, stored under that id,
    the counter moves up by one and the record is returned with 201.  No
    other request is answered 201, and a request that is not answered 201
    leaves the store as it was. *)
Theorem create_todo_validation req now1 now2 s :
  (is_json req = false ->
     reply (POST_todos req now1 now2) s
     = {| content := error_body "Content-Type must be application/json";
          status := 400 |}
     /\ after (POST_todos req now1 now2) s = s)
  /\ (forall d,
        is_json req = true -> payload req = Parsed (JObj d) ->
        d !! "title" = None ->
        reply (POST_todos req now1 now2) s
        = {| content := error_body "Missing required field: title";
             status := 400 |}
        /\ after (POST_todos req now1 now2) s = s)
  /\ (forall d title,
        is_json req = true -> payload req = Parsed (JObj d) ->
        d !! "title" = Some title ->
        reply (POST_todos req now1 now2) s
        = {| content := JObj (new_todo (next_id s) title d now1 now2);
             status := 201 |}
        /\ after (POST_todos req now1 now2) s
           = {| todos := <[next_id s := new_todo (next_id s) title d now1 now2]>
                           (todos s);
                next_id := next_id s + 1 |})
  /\ (status (reply (POST_todos req now1 now2) s) <> 201 ->
      after (POST_todos req now1 now2) s = s)
  /\ (status (reply (POST_todos req now1 now2) s) = 201 ->
      exists d title,
        is_json req = true /\ payload req = Parsed (JObj d)
        /\ d !! "title" = Some title).
Proof.
  split_and!.
  - apply create_todo_not_json.
  - intros d. apply create_todo_no_title.
  - intros d title. apply create_todo_object.
  - intros Hno.
    destruct (create_todo_outcome req now1 now2 s)
      as [[_ ->]|(d & title & _ & _ & _ & Hr & _)]; [done|].
    rewrite Hr in Hno. done.
  - intros Hok.
    destruct (create_todo_outcome req now1 now2 s)
      as [[[H|H] _]|(d & title & Hj & Hp & Ht & _)];
      [rewrite H in Hok; discriminate .. |].
    by exists d, title.
Qed.

Lemma create_todo_validation_witness :
  status (reply (POST_todos (text_request buy_milk) noon noon) initial) = 400
  /\ status (reply (POST_todos (json_request empty_object) noon noon) initial) = 400
  /\ status (reply (POST_todos (json_request buy_milk) noon noon) initial) = 201.
Proof.
  split; [|split].
  - destruct (create_todo_validation (text_request buy_milk) noon noon initial)
      as (H & _).
    destruct (H eq_refl) as [-> _]. reflexivity.
  - destruct (create_todo_validation (json_request empty_object) noon noon initial)
      as (_ & H & _).
    destruct (H ∅ eq_refl eq_refl eq_refl) as [-> _]. reflexivity.
  - destruct (create_todo_validation (json_request buy_milk) noon noon initial)
      as (_ & _ & H & _).
    destruct (H {[ "title" := JStr "Buy milk" ]} (JStr "Buy milk")
                eq_refl eq_refl eq_refl) as [-> _].
    reflexivity.
Defined.

(** C1 as stated fails: a JSON body whose title is the empty string is not
    refused, it is stored as todo 1 and answered 201; and a request that is
    not JSON, which the statement sends to the 201 branch, is answered 400. *)
Lemma create_todo_accepts_empty_title :
  status (reply (POST_todos (json_request empty_title) noon noon) initial) = 201
  /\ todos (after (POST_todos (json_request empty_title) noon noon) initial) !! 1
     <> None
  /\ ~ create_contract_as_stated (json_request empty_title) noon noon initial
  /\ ~ create_contract_as_stated (text_request buy_milk) noon noon initial.
Proof.
  split; [by vm_compute|]. split; [vm_compute; discriminate|]. split.
  - intros [Hrefused _].
    destruct Hrefused as [Hstatus _].
    + split; [done|]. exists {[ "title" := JStr EmptyString ]}.
      split; [done|]. by right.
    + vm_compute in Hstatus. discriminate.
  - intros [_ Hother].
    assert (status (reply (POST_todos (text_request buy_milk) noon noon) initial)
            = 201) as Hstatus.
    { apply Hother. intros [Hj _]. discriminate. }
    vm_compute in Hstatus. discriminate.
Qed.

(** C2, as the code has it.  The record a successful create returns carries
    the stamp of the first clock reading as [created_at] and the stamp of
    the second as [updated_at]; the two stamps agree whenever the two
    readings do. *)
Theorem create_todo_stamps req now1 now2 s :
  status (reply (POST_todos req now1 now2) s) = 201 ->
  exists t,
    content (reply (POST_todos req now1 now2) s) = JObj t
    /\ t !! "created_at" = Some (timestamp now1)
    /\ t !! "updated_at" = Some (timestamp now2)
    /\ (now1 = now2 -> stamps_equal (reply (POST_todos req now1 now2) s)).
Proof.
  intros Hok.
  destruct (create_todo_outcome req now1 now2 s)
    as [[[H|H] _]|(d & title & _ & _ & _ & Hr & _)];
    [rewrite H in Hok; discriminate .. |].
  exists (new_todo (next_id s) title d now1 now2).
  rewrite Hr. unfold stamps_equal. cbn [content].
  rewrite new_todo_created_at, new_todo_updated_at.
  repeat split; try done. by intros ->.
Qed.

Lemma create_todo_stamps_witness :
  exists t,
    content (reply (POST_todos (json_request buy_milk) noon just_after_noon) initial)
    = JObj t
    /\ t !! "created_at" = Some (JStr "2024-01-02T12:00:00Z")
    /\ t !! "updated_at" = Some (JStr "2024-01-02T12:00:00.000017Z").
Proof.
  destruct (create_todo_stamps (json_request buy_milk) noon just_after_noon initial)
    as (t & Hc & H1 & H2 & _).
  - vm_compute. reflexivity.
  - exists t. split; [exact Hc|]. split; [exact H1 | exact H2].
Defined.

(** C2 as stated fails: when the clock moves between the two readings the
    returned record has two different stamps. *)
Lemma create_todo_stamps_differ :
  status (reply (POST_todos (json_request buy_milk) noon just_after_noon) initial) = 201
  /\ ~ stamps_equal
         (reply (POST_todos (json_request buy_milk) noon just_after_noon) initial).
Proof.
  split; [by vm_compute|].
  intros H. vm_compute in H. discriminate.
Qed.

(** ** Identifiers *)

Lemma strictly_sorted_NoDup (l : list Z) : StronglySorted Z.lt l -> NoDup l.
Proof.
  induction 1 as [|x l _ IH Hx]; constructor; [|done].
  intros Hin. rewrite Forall_forall in Hx. specialize (Hx x Hin). lia.
Qed.

Lemma created_id_is_counter c s n :
  created_id (c, reply c s) = Some n -> n = next_id s.
Proof.
  intros H.
  destruct (effect_next_id _ _ _ _ (handle_effect c s)) as [[E _]|[E _]];
    rewrite E in H; congruence.
Qed.

(** C3.  Along every sequence of requests, from any store: the ids that the
    creates assign are strictly increasing, so none is assigned twice; no
    request lowers the counter and a delete leaves it where it is; and a
    create that follows a delete of [k] is given an id that no earlier
    create of the sequence was given, and that is not [k] when the delete
    found [k] in a store that grew from the empty one. *)
Theorem ids_never_reused :
  (forall s cs,
     StronglySorted Z.lt (ids_assigned (run s cs).2)
     /\ NoDup (ids_assigned (run s cs).2))
  /\ (forall s c, next_id s <= next_id (after c s))
  /\ (forall s k, next_id (after (DELETE_todo k) s) = next_id s)
  /\ (forall s cs k cs' req now1 now2 n,
        let history := cs ++ DELETE_todo k :: cs' in
        created_id (POST_todos req now1 now2,
                    reply (POST_todos req now1 now2) (run s history).1) = Some n ->
        n ∉ ids_assigned (run s history).2)
  /\ (forall cs k cs' req now1 now2 n,
        let history := cs ++ DELETE_todo k :: cs' in
        is_delete (DELETE_todo k, reply (DELETE_todo k) (run initial cs).1) = true ->
        created_id (POST_todos req now1 now2,
                    reply (POST_todos req now1 now2) (run initial history).1) = Some n ->
        n <> k).
Proof.
  split; [|split; [|split; [|split]]].
  - intros s cs. destruct (run_ids s cs) as (_ & _ & H).
    split; [done | by apply strictly_sorted_NoDup].
  - intros s c.
    destruct (effect_next_id _ _ _ _ (handle_effect c s)) as [[_ ->]|[_ ->]]; lia.
  - intros s k. destruct (todos s !! k) as [t|] eqn:H.
    + by destruct (delete_todo_present k s t H) as [_ ->].
    + by destruct (delete_todo_absent k s H) as [_ ->].
  - intros s cs k cs' req now1 now2 n history Hn.
    apply created_id_is_counter in Hn. subst n.
    destruct (run_ids s history) as (_ & Hall & _).
    rewrite Forall_forall in Hall. intros Hin. specialize (Hall _ Hin). lia.
  - intros cs k cs' req now1 now2 n history Hdel Hn.
    apply created_id_is_counter in Hn. subst n.
    subst history. destruct (run_app initial cs (DELETE_todo k :: cs')) as [-> _].
    set (s1 := (run initial cs).1) in *.
    destruct (run_cons s1 (DELETE_todo k) cs') as [-> _].
    assert (keys_below s1) as Hs1 by (apply run_keys_below, initial_keys_below).
    destruct (todos s1 !! k) as [t|] eqn:Hk.
    2: { destruct (delete_todo_absent k s1 Hk) as [Hr _].
         unfold is_delete in Hdel. cbn in Hdel. rewrite Hr in Hdel. done. }
    assert (k < next_id s1) by (apply Hs1; eauto).
    destruct (delete_todo_present k s1 t Hk) as [_ Ha].
    destruct (run_ids (after (DELETE_todo k) s1) cs') as (Hle & _).
    rewrite Ha in Hle at 1. cbn in Hle. lia.
Qed.

Lemma ids_never_reused_witness :
  let history := [POST_todos (json_request buy_milk) noon noon; DELETE_todo 1] in
  created_id (POST_todos (json_request buy_milk) noon noon,
              reply (POST_todos (json_request buy_milk) noon noon)
                    (run initial history).1) = Some 2
  /\ (2 ∉ ids_assigned (run initial history).2)
  /\ 2 <> 1.
Proof.
  destruct ids_never_reused as (_ & _ & _ & Hfresh & Hdeleted).
  split; [vm_compute; reflexivity|]. split.
  - apply (Hfresh initial [POST_todos (json_request buy_milk) noon noon] 1 []
                  (json_request buy_milk) noon noon 2).
    vm_compute. reflexivity.
  - apply (Hdeleted [POST_todos (json_request buy_milk) noon noon] 1 []
                    (json_request buy_milk) noon noon 2).
    + vm_compute. reflexivity.
    + vm_compute. reflexivity.
Defined.

(** ** Update and partial update *)

Lemma merge_key_same d key t :
  merge_key d key t !! key
  = match d !! key with Some v => Some v | None => t !! key end.
Proof. unfold merge_key. destruct (d !! key); by simplify_map_eq. Qed.

Lemma merge_key_other d key t k :
  k <> key -> merge_key d key t !! k = t !! k.
Proof. intros H. unfold merge_key. destruct (d !! key); by simplify_map_eq. Qed.

Lemma merged_body_key d now old k :
  k ∈ ["title"; "description"; "completed"] ->
  merged d now old !! k
  = match d !! k with Some v => Some v | None => old !! k end.
Proof.
  intros Hk. unfold merged.
  apply elem_of_cons in Hk as [->|Hk]; [|apply elem_of_cons in Hk as [->|Hk]];
    [| |apply list_elem_of_singleton in Hk as ->].
  - rewrite lookup_insert_ne by done.
    rewrite !merge_key_other by done. apply merge_key_same.
  - rewrite lookup_insert_ne by done.
    rewrite merge_key_other by done. rewrite merge_key_same.
    by rewrite merge_key_other by done.
  - rewrite lookup_insert_ne by done. rewrite merge_key_same.
    by rewrite !merge_key_other by done.
Qed.

Lemma merged_other_key d now old k :
  k ∉ ["title"; "description"; "completed"; "updated_at"] ->
  merged d now old !! k = old !! k.
Proof.
  intros Hk. unfold merged.
  rewrite lookup_insert_ne by (intros <-; apply Hk; set_solver).
  rewrite !merge_key_other; [done | | |]; intros ->; apply Hk; set_solver.
Qed.

Lemma merged_empty now old :
  merged ∅ now old = <["updated_at" := timestamp now]> old.
Proof. unfold merged, merge_key. by rewrite !lookup_empty. Qed.

(** A PUT that is answered 200 has merged the keys of its body into the old
    record and stamped it. *)
Lemma update_todo_success todo_id req now s old :
  todos s !! todo_id = Some old ->
  status (reply (PUT_todo todo_id req now) s) = 200 ->
  exists new,
    reply (PUT_todo todo_id req now) s = {| content := JObj new; status := 200 |}
    /\ after (PUT_todo todo_id req now) s = with_todo s todo_id new
    /\ (forall k, k ∈ ["title"; "description"; "completed"] ->
          new !! k = match body_key req k with Some v => Some v | None => old !! k end)
    /\ (forall k, k ∉ ["title"; "description"; "completed"; "updated_at"] ->
          new !! k = old !! k)
    /\ new !! "updated_at" = Some (timestamp now)
    /\ (payload req = Parsed (JObj ∅) -> new = <["updated_at" := timestamp now]> old).
Proof.
  intros Hold Hok. unfold body_key.
  destruct (is_json req) eqn:Hj.
  2: { destruct (update_todo_not_json todo_id req now s old Hold Hj) as [Hr _].
       rewrite Hr in Hok. discriminate. }
  destruct (payload req) as [description|data] eqn:Hp.
  { destruct (update_todo_unparsable todo_id req now s old _ Hold Hj Hp) as [Hr _].
    rewrite Hr in Hok. discriminate. }
  destruct (not_object_dec data) as [[d ->]|Hd].
  - destruct (update_todo_object todo_id req now s old d Hold Hj Hp) as [-> ->].
    exists (merged d now old). split_and!; [done | done | | | |].
    + intros k. apply merged_body_key.
    + intros k. apply merged_other_key.
    + unfold merged. by simplify_map_eq.
    + intros [= ->]. apply merged_empty.
  - destruct (update_todo_other todo_id req now s old data Hold Hj Hp Hd)
      as [[Hr _]|[-> ->]]; [rewrite Hr in Hok; discriminate|].
    exists (<["updated_at" := timestamp now]> old).
    assert (forall k, k <> "updated_at" ->
              <["updated_at" := timestamp now]> old !! k = old !! k) as Hframe
      by (intros k Hk; by rewrite lookup_insert_ne).
    split_and!; [done | done | | | |].
    + intros k Hk. rewrite Hframe.
      * by destruct data; try done; destruct (Hd d).
      * intros ->. revert Hk. by apply (bool_decide_unpack _).
    + intros k Hk. apply Hframe. intros ->. apply Hk.
      by apply (bool_decide_unpack _).
    + by simplify_map_eq.
    + intros [= ->]. by destruct (Hd ∅).
Qed.



(** C4 as stated fails in its last clause: the views write the reading of
    the wall clock without comparing it with the stamp they replace.  Todo 1
    is patched with [{}] just after noon and then again with a clock that
    reads noon; both requests are answered 200 and the second one takes
    [updated_at] back from 12:00:00.000017 to 12:00:00. *)
Lemma update_lowers_updated_at :
  status (reply (PATCH_todo 1 (json_request empty_object) just_after_noon) one_todo)
  = 200
  /\ status (reply (PATCH_todo 1 (json_request empty_object) noon) patched_once) = 200
  /\ (exists old, todos patched_once !! 1 = Some old
                  /\ old !! "updated_at" = Some (JStr "2024-01-02T12:00:00.000017Z"))
  /\ (exists new,
        todos (after (PATCH_todo 1 (json_request empty_object) noon) patched_once) !! 1
        = Some new
        /\ new !! "updated_at" = Some (JStr "2024-01-02T12:00:00Z"))
  /\ ~ updated_at_never_decreases
        (PATCH_todo 1 (json_request empty_object) noon) 1 patched_once.
Proof.
  assert (todos patched_once !! 1
          = Some (<["updated_at" := timestamp just_after_noon]> milk_record)) as Hold
    by (vm_compute; reflexivity).
  assert (todos (after (PATCH_todo 1 (json_request empty_object) noon) patched_once) !! 1
          = Some (<["updated_at" := timestamp noon]> milk_record)) as Hnew
    by (vm_compute; reflexivity).
  split_and!.
  - vm_compute. reflexivity.
  - vm_compute. reflexivity.
  - eexists. split; [exact Hold|]. vm_compute. reflexivity.
  - eexists. split; [exact Hnew|]. vm_compute. reflexivity.
  - intros H.
    assert (dt_le just_after_noon noon) as Hle.
    { apply (H ltac:(vm_compute; reflexivity) _ _ just_after_noon noon Hold Hnew);
        apply lookup_insert_eq. }
    vm_compute in Hle. by apply Hle.
Qed.

(** C5.  On every store, for every id, body and clock reading, PUT and
    PATCH give the same response and leave the same store. *)
Theorem put_patch_equivalent todo_id req now s :
  reply (PUT_todo todo_id req now) s = reply (PATCH_todo todo_id req now) s
  /\ after (PUT_todo todo_id req now) s = after (PATCH_todo todo_id req now) s.
Proof. apply put_patch_same. Qed.

(** ** Listing *)

Lemma get_todos_count s :
  listed_count (reply GET_todos s) = Some (Z.of_nat (size (todos s))).
Proof.
  destruct (get_todos_reply s) as [-> _]. unfold listed_count. cbn [content].
  by simplify_map_eq.
Qed.

(** C6.  After every sequence of requests served from the empty store, the
    count that [GET /todos] returns is the number of creates answered 201
    minus the number of deletes answered 200. *)
Theorem list_count_balance cs :
  listed_count (reply GET_todos (run initial cs).1)
  = Some (tally is_create (run initial cs).2 - tally is_delete (run initial cs).2).
Proof.
  rewrite get_todos_count, (run_size initial cs initial_keys_below).
  cbn [initial todos]. rewrite map_size_empty. f_equal; lia.
Qed.

(** ** Lookup *)

(** C7.  [GET /todos/{id}] for an id that is not in the store answers 404
    with the body [{"error": "Todo with id {id} not found"}], the id printed
    in decimal; on the empty store and id 999 the message reads
    "Todo with id 999 not found". *)
Theorem get_todo_not_found :
  (forall s todo_id,
     todos s !! todo_id = None ->
     reply (GET_todo todo_id) s
     = {| content :=
            JObj {[ "error" := JStr ("Todo with id " +:+ pretty todo_id +:+ " not found") ]};
          status := 404 |})
  /\ reply (GET_todo 999) initial
     = {| content := JObj {[ "error" := JStr "Todo with id 999 not found" ]};
          status := 404 |}.
Proof.
  split.
  - intros s todo_id H. by destruct (get_todo_absent todo_id s H) as [-> _].
  - by destruct (get_todo_absent 999 initial eq_refl) as [-> _].
Qed.

Lemma get_todo_not_found_witness :
  reply (GET_todo 7) one_todo
  = {| content := JObj {[ "error" := JStr "Todo with id 7 not found" ]};
       status := 404 |}.
Proof.
  destruct get_todo_not_found as [H _].
  rewrite (H one_todo 7); [reflexivity|].
  vm_compute. reflexivity.
Defined.

(** ** Delete *)

(** C8.  [DELETE /todos/{id}] answers 404 when the id is not in the store.
    Otherwise it answers 200 with a body made of a message and the record
    it removed, the mapping loses exactly that id, and a GET of the id on
    the store it leaves answers 404. *)
Theorem delete_todo_contract s todo_id :
  (todos s !! todo_id = None ->
     reply (DELETE_todo todo_id) s
     = {| content := not_found todo_id; status := 404 |})
  /\ (forall t,
        todos s !! todo_id = Some t ->
        reply (DELETE_todo todo_id) s
        = {| content := JObj {[ "message" := JStr "Todo deleted successfully";
                                "todo" := JObj t ]};
             status := 200 |}
        /\ todos (after (DELETE_todo todo_id) s) = delete todo_id (todos s)
        /\ todos (after (DELETE_todo todo_id) s) !! todo_id = None
        /\ reply (GET_todo todo_id) (after (DELETE_todo todo_id) s)
           = {| content := not_found todo_id; status := 404 |}).
Proof.
  split.
  - intros H. by destruct (delete_todo_absent todo_id s H) as [-> _].
  - intros t H. destruct (delete_todo_present todo_id s t H) as [-> ->].
    cbn [todos].
    repeat split; [apply lookup_delete_eq|].
    apply get_todo_absent. apply lookup_delete_eq.
Qed.

Lemma delete_todo_contract_witness :
  status (reply (DELETE_todo 1) initial) = 404
  /\ reply (DELETE_todo 1) one_todo
     = {| content := JObj {[ "message" := JStr "Todo deleted successfully";
                             "todo" := JObj milk_record ]};
          status := 200 |}
  /\ status (reply (GET_todo 1) (after (DELETE_todo 1) one_todo)) = 404.
Proof.
  split; [|split].
  - destruct (delete_todo_contract initial 1) as [H _].
    rewrite H; reflexivity.
  - destruct (delete_todo_contract one_todo 1) as [_ H].
    destruct (H milk_record) as (Hr & _); [vm_compute; reflexivity|exact Hr].
  - destruct (delete_todo_contract one_todo 1) as [_ H].
    destruct (H milk_record) as (_ & _ & _ & Hg); [vm_compute; reflexivity|].
    rewrite Hg. reflexivity.
Defined.

(** ** Order of the checks, and failures *)

(** C9.  A PUT or a PATCH of an id that is not in the store answers 404
    whatever the content type and the body of the request; a POST whose
    content type is not JSON answers 400 with the content-type message
    whatever its body, a body without title included. *)
Theorem lookup_precedes_content_type :
  (forall s todo_id req now,
     todos s !! todo_id = None ->
     reply (PUT_todo todo_id req now) s
     = {| content := not_found todo_id; status := 404 |}
     /\ reply (PATCH_todo todo_id req now) s
        = {| content := not_found todo_id; status := 404 |})
  /\ (forall s req now1 now2,
        is_json req = false ->
        reply (POST_todos req now1 now2) s
        = {| content := error_body "Content-Type must be application/json";
             status := 400 |}).
Proof.
  split.
  - intros s todo_id req now H.
    destruct (put_patch_same todo_id req now s) as [<- _].
    by destruct (update_todo_absent todo_id req now s H) as [-> _].
  - intros s req now1 now2 H.
    by destruct (create_todo_not_json req now1 now2 s H) as [-> _].
Qed.

Lemma lookup_precedes_content_type_witness :
  status (reply (PUT_todo 5 (text_request buy_milk) noon) one_todo) = 404
  /\ status (reply (PATCH_todo 5 (text_request buy_milk) noon) one_todo) = 404
  /\ reply (POST_todos (text_request empty_object) noon noon) one_todo
     = {| content := JObj {[ "error" := JStr "Content-Type must be application/json" ]};
          status := 400 |}.
Proof.
  destruct lookup_precedes_content_type as [Hupdate Hcreate].
  destruct (Hupdate one_todo 5 (text_request buy_milk) noon) as [-> ->].
  - vm_compute. reflexivity.
  - split; [reflexivity|]. split; [reflexivity|].
    apply Hcreate. reflexivity.
Defined.

Lemma effect_failure s c r s' :
  effect s c r s' -> status r <> 200 -> status r <> 201 -> s' = s.
Proof. intros [] H200 H201; cbn in *; done. Qed.

(** C10.  A request that is answered 404 or 400 leaves the mapping and the
    counter as they were; in particular a create that is refused does not
    use up an id. *)
Theorem errors_leave_store_alone c s :
  status (reply c s) = 404 \/ status (reply c s) = 400 ->
  after c s = s
  /\ todos (after c s) = todos s
  /\ next_id (after c s) = next_id s.
Proof.
  intros Hs.
  assert (after c s = s) as ->; [|done].
  apply (effect_failure s c (reply c s)); [apply handle_effect | lia | lia].
Qed.

Lemma errors_leave_store_alone_witness :
  after (POST_todos (json_request empty_object) noon noon) one_todo = one_todo
  /\ next_id (after (GET_todo 5) one_todo) = 2.
Proof.
  split.
  - apply (errors_leave_store_alone
             (POST_todos (json_request empty_object) noon noon) one_todo).
    right. vm_compute. reflexivity.
  - destruct (errors_leave_store_alone (GET_todo 5) one_todo) as (_ & _ & ->).
    + left. vm_compute. reflexivity.
    + vm_compute. reflexivity.
Defined.

(** The other failure, the 500 of the error handler, does not write either. *)
Lemma failures_leave_store_alone c s :
  status (reply c s) = 500 -> after c s = s.
Proof.
  intros Hs.
  apply (effect_failure s c (reply c s)); [apply handle_effect | lia | lia].
Qed.

(** * Further properties *)

Local Set Warnings "-clear-no-such-hyp".

(** ** Reading back what was written *)

(** X1.  A create that is answered 201 can be read back: a GET of the id in
    the returned record answers 200 with that very record. *)
Theorem create_then_get req now1 now2 s :
  status (reply (POST_todos req now1 now2) s) = 201 ->
  exists t,
    reply (POST_todos req now1 now2) s = {| content := JObj t; status := 201 |}
    /\ t !! "id" = Some (JInt (next_id s))
    /\ reply (GET_todo (next_id s)) (after (POST_todos req now1 now2) s)
       = {| content := JObj t; status := 200 |}.
Proof.
  intros Hok.
  destruct (create_todo_outcome req now1 now2 s)
    as [[[H|H] _]|(d & title & _ & _ & _ & Hr & Ha)];
    [rewrite H in Hok; discriminate .. |].
  exists (new_todo (next_id s) title d now1 now2).
  split_and!; [done | apply new_todo_id |].
  apply get_todo_present. rewrite Ha. cbn [todos]. apply lookup_insert_eq.
Qed.

Lemma create_then_get_witness :
  reply (GET_todo 1) (after (POST_todos (json_request buy_milk) noon noon) initial)
  = {| content := JObj milk_record; status := 200 |}.
Proof.
  destruct (create_then_get (json_request buy_milk) noon noon initial)
    as (t & Hr & _ & Hg).
  - vm_compute. reflexivity.
  - cbn [initial next_id] in Hg. rewrite Hg. f_equal.
    rewrite scenario_buy_milk in Hr. congruence.
Defined.

(** X2.  A PUT or a PATCH that is answered 200 can be read back: a GET of
    the same id answers 200 with the body the update returned. *)
Theorem update_then_get c todo_id req now s :
  c = PUT_todo todo_id req now \/ c = PATCH_todo todo_id req now ->
  status (reply c s) = 200 ->
  reply (GET_todo todo_id) (after c s)
  = {| content := content (reply c s); status := 200 |}.
Proof.
  intros Hc Hok.
  assert (reply c s = reply (PUT_todo todo_id req now) s
          /\ after c s = after (PUT_todo todo_id req now) s) as [Hr Ha].
  { destruct Hc as [-> | ->]; [done|].
    by destruct (put_patch_same todo_id req now s) as [<- <-]. }
  rewrite Hr in *. rewrite Ha.
  destruct (update_todo_outcome todo_id req now s)
    as [(_ & _ & H200 & _)|(old & new & _ & -> & ->)]; [done|].
  apply get_todo_present, with_todo_lookup.
Qed.

Lemma update_then_get_witness :
  reply (GET_todo 1)
        (after (PATCH_todo 1 (json_request completed_true) just_after_noon) one_todo)
  = {| content :=
         content (reply (PATCH_todo 1 (json_request completed_true) just_after_noon)
                        one_todo);
       status := 200 |}.
Proof.
  apply (update_then_get _ 1 (json_request completed_true) just_after_noon).
  - right. reflexivity.
  - vm_compute. reflexivity.
Defined.

(** ** What a request leaves alone *)

Lemma effect_frame s c r s' k :
  effect s c r s' -> ~ writes_to c k -> k <> next_id s ->
  todos s' !! k = todos s !! k.
Proof.
  intros [c' r' _ _|req now1 now2 t _|todo_id req now old new _
         |todo_id req now old new _|todo_id t _] Hw Hk; cbn in *; try done.
  - by rewrite lookup_insert_ne.
  - by rewrite lookup_insert_ne.
  - by rewrite lookup_insert_ne.
  - by rewrite lookup_delete_ne.
Qed.

Lemma effect_counter s c r s' : effect s c r s' -> next_id s <= next_id s'.
Proof. intros E. destruct (effect_next_id _ _ _ _ E) as [[_ ->]|[_ ->]]; lia. Qed.

(** A key below the counter that holds nothing keeps holding nothing. *)
Lemma effect_stays_absent s c r s' k :
  effect s c r s' -> k < next_id s -> todos s !! k = None ->
  todos s' !! k = None.
Proof.
  intros [c' r' _ _|req now1 now2 t _|todo_id req now old new Hold
         |todo_id req now old new Hold|todo_id t _] Hk Habs; cbn; try done.
  - rewrite lookup_insert_ne by lia. done.
  - rewrite lookup_insert_ne; [done|]. intros ->. congruence.
  - rewrite lookup_insert_ne; [done|]. intros ->. congruence.
  - destruct (decide (todo_id = k)) as [->|Hne].
    + apply lookup_delete_eq.
    + by rewrite lookup_delete_ne.
Qed.

Lemma run_stays_absent s cs k :
  k < next_id s -> todos s !! k = None -> todos (run s cs).1 !! k = None.
Proof.
  revert s. induction cs as [|c cs IH]; intros s Hk Habs; [done|].
  destruct (run_cons s c cs) as [-> _].
  pose proof (handle_effect c s) as E. apply IH.
  - pose proof (effect_counter _ _ _ _ E). lia.
  - by apply (effect_stays_absent _ _ _ _ _ E).
Qed.

(** X3.  From a store whose keys lie below the counter, a record stays
    exactly as it is through every sequence of requests in which no PUT,
    PATCH or DELETE names its id. *)
Theorem other_records_untouched s cs k t :
  keys_below s ->
  todos s !! k = Some t ->
  Forall (fun c => ~ writes_to c k) cs ->
  todos (run s cs).1 !! k = Some t.
Proof.
  revert s. induction cs as [|c cs IH]; intros s Hs Hk Hcs; [done|].
  destruct (run_cons s c cs) as [-> _].
  apply Forall_cons in Hcs as [Hc Hcs].
  pose proof (handle_effect c s) as E.
  apply IH; [by apply (effect_keys_below _ _ _ _ E) | | done].
  rewrite (effect_frame _ _ _ _ _ E Hc); [done|].
  assert (k < next_id s) by (apply Hs; eauto). lia.
Qed.

Lemma other_records_untouched_witness :
  todos (run one_todo
           [POST_todos (json_request empty_title) noon noon;
            PUT_todo 2 (json_request completed_true) just_after_noon;
            DELETE_todo 2; GET_todos]).1 !! 1
  = Some milk_record.
Proof.
  apply other_records_untouched.
  - apply (run_keys_below initial [POST_todos (json_request buy_milk) noon noon]),
      initial_keys_below.
  - vm_compute. reflexivity.
  - repeat (constructor; [cbn; intros H; first [discriminate H | destruct H]|]).
    constructor.
Defined.

(** X4.  Once a DELETE has been answered 200, the id it removed is never
    served again: after any further requests a GET of that id answers 404. *)
Theorem deleted_ids_stay_gone cs k cs' :
  is_delete (DELETE_todo k, reply (DELETE_todo k) (run initial cs).1) = true ->
  reply (GET_todo k) (run initial (cs ++ DELETE_todo k :: cs')).1
  = {| content := not_found k; status := 404 |}.
Proof.
  intros Hdel. apply get_todo_absent.
  destruct (run_app initial cs (DELETE_todo k :: cs')) as [-> _].
  set (s1 := (run initial cs).1) in *.
  destruct (run_cons s1 (DELETE_todo k) cs') as [-> _].
  assert (keys_below s1) as Hs1 by (apply run_keys_below, initial_keys_below).
  destruct (todos s1 !! k) as [t|] eqn:Hk.
  2: { destruct (delete_todo_absent k s1 Hk) as [Hr _].
       unfold is_delete in Hdel. cbn in Hdel. rewrite Hr in Hdel. done. }
  assert (k < next_id s1) by (apply Hs1; eauto).
  destruct (delete_todo_present k s1 t Hk) as [_ Ha].
  apply run_stays_absent; rewrite Ha; cbn; [done | apply lookup_delete_eq].
Qed.

Lemma deleted_ids_stay_gone_witness :
  status (reply (GET_todo 1)
            (run initial [POST_todos (json_request buy_milk) noon noon;
                          DELETE_todo 1;
                          POST_todos (json_request buy_milk) noon noon]).1)
  = 404.
Proof.
  pose proof (deleted_ids_stay_gone [POST_todos (json_request buy_milk) noon noon] 1
                [POST_todos (json_request buy_milk) noon noon]) as H.
  cbn [app] in H. rewrite H.
  - reflexivity.
  - vm_compute. reflexivity.
Defined.

(** ** The shape of the stored records *)

Lemma new_todo_dom n title d now1 now2 :
  dom (new_todo n title d now1 now2) = todo_keys.
Proof.
  unfold new_todo, todo_keys.
  rewrite !dom_insert_L, dom_singleton_L. set_solver.
Qed.

(** What a PUT does to the record it names. *)
Lemma update_todo_kept todo_id req now s old :
  todos s !! todo_id = Some old ->
  after (PUT_todo todo_id req now) s = s
  \/ exists new,
       after (PUT_todo todo_id req now) s = with_todo s todo_id new
       /\ new !! "id" = old !! "id"
       /\ new !! "created_at" = old !! "created_at"
       /\ (dom old = todo_keys -> dom new = todo_keys).
Proof.
  intros Hold.
  destruct (update_todo_outcome todo_id req now s)
    as [(? & _)|(old' & new' & _ & Hr & _)]; [by left|].
  right.
  destruct (update_todo_success todo_id req now s old Hold)
    as (new & _ & Ha & Hbody & Hother & Hstamp & _); [by rewrite Hr|].
  exists new. split_and!; [done | | |].
  - apply Hother. by apply (bool_decide_unpack _).
  - apply Hother. by apply (bool_decide_unpack _).
  - intros Hdom. apply set_eq. intros k. rewrite elem_of_dom.
    destruct (decide (k ∈ ["title"; "description"; "completed"])) as [Hk|Hk].
    + rewrite (Hbody k Hk).
      assert (k ∈ todo_keys) as Hin by (revert Hk; unfold todo_keys; set_solver).
      split; [done|]. intros _.
      destruct (body_key req k); [eauto|].
      apply elem_of_dom. by rewrite Hdom.
    + destruct (decide (k = "updated_at")) as [->|Hne].
      * rewrite Hstamp. split; [|eauto]. intros _. unfold todo_keys. set_solver.
      * rewrite Hother by set_solver. by rewrite <- elem_of_dom, Hdom.
Qed.

Lemma patch_todo_kept todo_id req now s old :
  todos s !! todo_id = Some old ->
  after (PATCH_todo todo_id req now) s = s
  \/ exists new,
       after (PATCH_todo todo_id req now) s = with_todo s todo_id new
       /\ new !! "id" = old !! "id"
       /\ new !! "created_at" = old !! "created_at"
       /\ (dom old = todo_keys -> dom new = todo_keys).
Proof.
  destruct (put_patch_same todo_id req now s) as [_ <-]. apply update_todo_kept.
Qed.

(** One request either removes a record or keeps its [id], its
    [created_at] and its set of keys. *)
Lemma step_record c s k t :
  keys_below s ->
  todos s !! k = Some t ->
  todos (after c s) !! k = None
  \/ exists t',
       todos (after c s) !! k = Some t'
       /\ t' !! "id" = t !! "id"
       /\ t' !! "created_at" = t !! "created_at"
       /\ (dom t = todo_keys -> dom t' = todo_keys).
Proof.
  intros Hs Hk.
  assert (k <> next_id s) as Hnew by (assert (k < next_id s) by (apply Hs; eauto); lia).
  assert (~ writes_to c k ->
          exists t', todos (after c s) !! k = Some t'
                     /\ t' !! "id" = t !! "id"
                     /\ t' !! "created_at" = t !! "created_at"
                     /\ (dom t = todo_keys -> dom t' = todo_keys)) as Hframe.
  { intros Hw. exists t.
    by rewrite (effect_frame _ _ _ _ _ (handle_effect c s) Hw Hnew). }
  assert (forall todo_id,
            (after c s = s
             \/ exists new,
                  after c s = with_todo s todo_id new
                  /\ (todo_id = k -> new !! "id" = t !! "id"
                                      /\ new !! "created_at" = t !! "created_at"
                                      /\ (dom t = todo_keys -> dom new = todo_keys))) ->
            writes_to c k -> todo_id = k ->
            exists t', todos (after c s) !! k = Some t'
                       /\ t' !! "id" = t !! "id"
                       /\ t' !! "created_at" = t !! "created_at"
                       /\ (dom t = todo_keys -> dom t' = todo_keys)) as Hwrite.
  { intros todo_id [->|(new & -> & Hnew')] _ ->; [by exists t|].
    exists new. rewrite with_todo_lookup. split; [done|]. by apply Hnew'. }
  destruct c as [|todo_id|req now1 now2|todo_id req now|todo_id req now|todo_id];
    try (right; apply Hframe; by intros []).
  - destruct (decide (todo_id = k)) as [->|Hne]; [|right; by apply Hframe].
    right. apply (Hwrite k); [|done|done].
    destruct (update_todo_kept k req now s t Hk) as [?|(new & ? & ?)]; [by left|].
    right. exists new. by split.
  - destruct (decide (todo_id = k)) as [->|Hne]; [|right; by apply Hframe].
    right. apply (Hwrite k); [|done|done].
    destruct (patch_todo_kept k req now s t Hk) as [?|(new & ? & ?)]; [by left|].
    right. exists new. by split.
  - destruct (decide (todo_id = k)) as [->|Hne]; [|right; by apply Hframe].
    left. destruct (delete_todo_present k s t Hk) as [_ ->]. apply lookup_delete_eq.
Qed.

Lemma run_record s cs k t :
  keys_below s ->
  todos s !! k = Some t ->
  todos (run s cs).1 !! k = None
  \/ exists t',
       todos (run s cs).1 !! k = Some t'
       /\ t' !! "id" = t !! "id"
       /\ t' !! "created_at" = t !! "created_at".
Proof.
  revert s t. induction cs as [|c cs IH]; intros s t Hs Hk; [right; by exists t|].
  destruct (run_cons s c cs) as [-> _].
  pose proof (handle_effect c s) as E.
  destruct (step_record c s k t Hs Hk) as [Hgone|(t1 & Hk1 & Hid & Hcreated & _)].
  - left. apply run_stays_absent; [|done].
    assert (k < next_id s) by (apply Hs; eauto).
    pose proof (effect_counter _ _ _ _ E). lia.
  - destruct (IH (after c s) t1) as [?|(t' & ? & Hid' & Hcreated')];
      [by apply (effect_keys_below _ _ _ _ E) | done | by left |].
    right. exists t'. split_and!; [done | congruence | congruence].
Qed.

(** X5.  Along every sequence of requests served from the empty store, a
    record keeps the [id] and the [created_at] it has: what a later store
    holds under the same key has the same two fields, whatever PUT and PATCH
    bodies were sent, an [id] or a [created_at] of their own included. *)
Theorem id_and_created_at_never_change cs cs' k t t' :
  todos (run initial cs).1 !! k = Some t ->
  todos (run initial (cs ++ cs')).1 !! k = Some t' ->
  t' !! "id" = t !! "id" /\ t' !! "created_at" = t !! "created_at".
Proof.
  intros Hk Hk'. destruct (run_app initial cs cs') as [Happ _].
  rewrite Happ in Hk'.
  destruct (run_record (run initial cs).1 cs' k t) as [H|(t'' & H & ? & ?)];
    [apply run_keys_below, initial_keys_below | done | congruence |].
  rewrite H in Hk'. injection Hk' as <-. done.
Qed.

Lemma id_and_created_at_never_change_witness :
  exists t',
    todos (after (PUT_todo 1 (json_request (JObj {[ "id" := JInt 7;
                                                    "created_at" := JStr "never" ]}))
                           just_after_noon) one_todo) !! 1 = Some t'
    /\ t' !! "id" = Some (JInt 1)
    /\ t' !! "created_at" = Some (JStr "2024-01-02T12:00:00Z").
Proof.
  set (put := PUT_todo 1 (json_request (JObj {[ "id" := JInt 7;
                                                "created_at" := JStr "never" ]}))
                       just_after_noon).
  destruct (todos (after put one_todo) !! 1) as [t'|] eqn:Hk';
    [|vm_compute in Hk'; discriminate Hk'].
  exists t'. split; [reflexivity|].
  destruct (id_and_created_at_never_change
              [POST_todos (json_request buy_milk) noon noon] [put] 1 milk_record t')
    as [-> ->].
  - vm_compute. reflexivity.
  - exact Hk'.
  - split; vm_compute; reflexivity.
Defined.

Lemma effect_no_new_key s c r s' k :
  effect s c r s' ->
  (forall req now1 now2, c <> POST_todos req now1 now2) ->
  todos s !! k = None ->
  todos s' !! k = None.
Proof.
  intros [c' r' _ _|req now1 now2 t _|todo_id req now old new Hold
         |todo_id req now old new Hold|todo_id t _] Hc Habs; cbn; try done.
  - by destruct (Hc req now1 now2).
  - rewrite lookup_insert_ne; [done|]. intros ->. congruence.
  - rewrite lookup_insert_ne; [done|]. intros ->. congruence.
  - destruct (decide (todo_id = k)) as [->|Hne].
    + apply lookup_delete_eq.
    + by rewrite lookup_delete_ne.
Qed.

Lemma well_formed_keys_below s : well_formed s -> keys_below s.
Proof. intros [_ Hs] k [t Hk]. destruct (Hs k t Hk) as (_ & _ & ?). lia. Qed.

Lemma handle_well_formed c s : well_formed s -> well_formed (after c s).
Proof.
  intros Hwf. pose proof Hwf as [Hpos Hs].
  pose proof (handle_effect c s) as E.
  pose proof (effect_counter _ _ _ _ E) as Hmono.
  split; [lia|]. intros k t' Hk'.
  destruct (todos s !! k) as [t|] eqn:Hk.
  - destruct (Hs k t Hk) as (Hdom & Hid & Hbound).
    destruct (step_record c s k t (well_formed_keys_below s Hwf) Hk)
      as [Hgone|(t1 & Hk1 & Hid1 & _ & Hdom1)]; [congruence|].
    assert (t1 = t') as -> by congruence.
    split_and!; [by apply Hdom1 | congruence | lia | lia].
  - destruct c as [|todo_id|req now1 now2|todo_id req now|todo_id req now|todo_id];
      try (rewrite (effect_no_new_key _ _ _ _ k E) in Hk'; done).
    destruct (create_todo_outcome req now1 now2 s)
      as [[_ Ha]|(d & title & _ & _ & _ & _ & Ha)]; rewrite Ha in *; [congruence|].
    cbn in *. destruct (decide (k = next_id s)) as [->|Hne].
    + rewrite lookup_insert_eq in Hk'. injection Hk' as <-.
      split_and!; [apply new_todo_dom | apply new_todo_id | lia | lia].
    + rewrite lookup_insert_ne in Hk' by done. congruence.
Qed.

Lemma initial_well_formed : well_formed initial.
Proof. split; [done|]. intros k t Hk. cbn in Hk. by rewrite lookup_empty in Hk. Qed.

(** X6.  After every sequence of requests served from the empty store, each
    stored record has exactly the six keys of a todo, its [id] is the key
    it is stored under, and that key is at least 1 and below the counter. *)
Theorem stored_records_well_formed cs : well_formed (run initial cs).1.
Proof.
  assert (forall s, well_formed s -> well_formed (run s cs).1) as H.
  { induction cs as [|c cs IH]; intros s Hs; [done|].
    destruct (run_cons s c cs) as [-> _]. by apply IH, handle_well_formed. }
  apply H, initial_well_formed.
Qed.

(** ** The counter *)

Lemma effect_create_tally s c r s' :
  effect s c r s' ->
  (created_id (c, r) = None /\ is_create (c, r) = false /\ next_id s' = next_id s)
  \/ (created_id (c, r) = Some (next_id s) /\ is_create (c, r) = true
      /\ next_id s' = next_id s + 1).
Proof.
  intros [c' r' Hc _|req now1 now2 t Ht| | |]; try (by left).
  - left. split_and!; [|done|done]. unfold created_id, is_create in *. cbn in *.
    destruct c'; try done. by rewrite Hc.
  - right. split_and!; [|done|done]. unfold created_id. cbn. by rewrite Ht.
Qed.

Lemma tally_nonneg p tr : 0 <= tally p tr.
Proof. induction tr as [|e tr IH]; cbn; [done|]. destruct (p e); lia. Qed.

Lemma run_ids_consecutive s cs :
  ids_assigned (run s cs).2 = seqZ (next_id s) (tally is_create (run s cs).2)
  /\ next_id (run s cs).1 = next_id s + tally is_create (run s cs).2.
Proof.
  revert s. induction cs as [|c cs IH]; intros s.
  { cbn. split; [by rewrite seqZ_nil | lia]. }
  destruct (run_cons s c cs) as [-> ->].
  destruct (IH (after c s)) as [Hids Hnext].
  unfold ids_assigned in *. cbn [omap list_omap tally].
  pose proof (tally_nonneg is_create (run (after c s) cs).2).
  destruct (effect_create_tally _ _ _ _ (handle_effect c s))
    as [(-> & -> & Hn)|(-> & -> & Hn)]; rewrite Hn in *.
  - split; [by rewrite Hids | lia].
  - split; [|lia]. rewrite seqZ_cons by lia. rewrite Hids.
    do 2 f_equal; lia.
Qed.

(** X7.  Served from the empty store, the creates that are answered 201 are
    given the ids 1, 2, 3, ... in order and without a gap, whatever requests
    come in between, and the counter is one more than their number. *)
Theorem ids_are_consecutive cs :
  ids_assigned (run initial cs).2 = seqZ 1 (tally is_create (run initial cs).2)
  /\ next_id (run initial cs).1 = 1 + tally is_create (run initial cs).2.
Proof. apply (run_ids_consecutive initial cs). Qed.

(** ** The views that only read *)

Lemma handle_serve c s : handle c s = serve (dispatch c) s.
Proof. reflexivity. Qed.

Lemma health_check_reply now s :
  serve (health_check now) s
  = ({| content := JObj {[ "status" := JStr "healthy";
                           "timestamp" := timestamp now;
                           "todos_count" := JInt (Z.of_nat (size (todos s))) ]};
        status := 200 |},
     s, ["incoming_request"; "health_check"; "outgoing_response"]).
Proof. reflexivity. Qed.

(** X8.  [GET /health] always answers 200 and leaves the store alone; its
    [todos_count] is the number of stored records, the same number that
    [GET /todos] returns as [count] on that store, and after any sequence
    of requests served from the empty store it is the number of creates
    answered 201 minus the number of deletes answered 200. *)
Theorem health_check_counts_todos :
  (forall now s,
     status (serve (health_check now) s).1.1 = 200
     /\ (serve (health_check now) s).1.2 = s
     /\ health_count (serve (health_check now) s).1.1
        = Some (Z.of_nat (size (todos s)))
     /\ health_count (serve (health_check now) s).1.1
        = listed_count (reply GET_todos s))
  /\ (forall now cs,
        health_count (serve (health_check now) (run initial cs).1).1.1
        = Some (tally is_create (run initial cs).2
                - tally is_delete (run initial cs).2)).
Proof.
  assert (forall now s,
            health_count (serve (health_check now) s).1.1
            = Some (Z.of_nat (size (todos s)))) as Hcount.
  { intros now s. rewrite health_check_reply. unfold health_count. cbn [fst content].
    by simplify_map_eq. }
  split.
  - intros now s. rewrite get_todos_count, Hcount.
    by rewrite health_check_reply.
  - intros now cs. rewrite Hcount, (run_size initial cs initial_keys_below).
    cbn [initial todos]. rewrite map_size_empty. f_equal; lia.
Qed.

(** X9.  The four GET views never write: whatever the store, [/health],
    [/], [/todos] and [/todos/{id}] leave it as it was; the first three
    always answer 200 and the last answers 200 or 404. *)
Theorem get_views_read_only now todo_id s :
  ((serve (health_check now) s).1.2 = s
   /\ status (serve (health_check now) s).1.1 = 200)
  /\ ((serve (root now) s).1.2 = s /\ status (serve (root now) s).1.1 = 200)
  /\ (after GET_todos s = s /\ status (reply GET_todos s) = 200)
  /\ (after (GET_todo todo_id) s = s
      /\ (status (reply (GET_todo todo_id) s) = 200
          \/ status (reply (GET_todo todo_id) s) = 404)).
Proof.
  split_and!; try reflexivity.
  - destruct (todos s !! todo_id) as [t|] eqn:H.
    + by destruct (get_todo_present todo_id s t H) as [_ ->].
    + by destruct (get_todo_absent todo_id s H) as [_ ->].
  - destruct (todos s !! todo_id) as [t|] eqn:H.
    + destruct (get_todo_present todo_id s t H) as [-> _]. by left.
    + destruct (get_todo_absent todo_id s H) as [-> _]. by right.
Qed.

(** ** Bodies that are not JSON objects *)

(** X10.  A body that does not parse as JSON, sent with a JSON content
    type, is answered 400 with the parser's description as the error and
    changes nothing: by POST always, by PUT and PATCH when the id exists
    (when it does not, they answer 404 first).  The refusal comes from the
    error handler, which logs it as [http_error]. *)
Theorem unparsable_body_is_400 req description s :
  is_json req = true ->
  payload req = Unparsable description ->
  (forall now1 now2,
     handle (POST_todos req now1 now2) s
     = ({| content := JObj {[ "error" := JStr description ]}; status := 400 |},
        s, ["incoming_request"; "http_error"; "outgoing_response"]))
  /\ (forall todo_id now old,
        todos s !! todo_id = Some old ->
        handle (PUT_todo todo_id req now) s
        = ({| content := JObj {[ "error" := JStr description ]}; status := 400 |},
           s, ["incoming_request"; "http_error"; "outgoing_response"])
        /\ handle (PATCH_todo todo_id req now) s
           = ({| content := JObj {[ "error" := JStr description ]}; status := 400 |},
              s, ["incoming_request"; "http_error"; "outgoing_response"]))
  /\ (forall todo_id now,
        todos s !! todo_id = None ->
        status (reply (PUT_todo todo_id req now) s) = 404
        /\ status (reply (PATCH_todo todo_id req now) s) = 404).
Proof.
  intros Hj Hp. split_and!.
  - intros now1 now2. unfold_views. by rewrite Hj, Hp.
  - intros todo_id now old Hold.
    split; unfold_views; rewrite Hold, bool_decide_false by done;
      by rewrite Hj, Hp.
  - intros todo_id now Habs.
    destruct (put_patch_same todo_id req now s) as [<- _].
    by destruct (update_todo_absent todo_id req now s Habs) as [-> _].
Qed.

Lemma unparsable_body_is_400_witness :
  reply (POST_todos {| is_json := true; payload := Unparsable "Expecting value" |}
                    noon noon) one_todo
  = {| content := JObj {[ "error" := JStr "Expecting value" ]}; status := 400 |}
  /\ after (PATCH_todo 1 {| is_json := true; payload := Unparsable "Expecting value" |}
                       noon) one_todo = one_todo.
Proof.
  destruct (unparsable_body_is_400
              {| is_json := true; payload := Unparsable "Expecting value" |}
              "Expecting value" one_todo eq_refl eq_refl) as (Hpost & Hput & _).
  split.
  - unfold reply. by rewrite Hpost.
  - destruct (Hput 1 noon milk_record) as [_ Hpatch]; [vm_compute; reflexivity|].
    unfold after. by rewrite Hpatch.
Defined.

(** X11.  A POST whose JSON body is not an object never creates a todo.  A
    falsy body ([null], [false], [0], the empty string, the empty list) is
    answered 400 with the missing-title message, and so is a string or a list
    that does not mention ["title"]; a truthy scalar, a string that has
    ["title"] as a substring and a list that has the string ["title"] as an
    element are answered 500 by the error handler. *)
Theorem create_todo_non_object req now1 now2 s data :
  is_json req = true ->
  payload req = Parsed data ->
  (forall d, data <> JObj d) ->
  after (POST_todos req now1 now2) s = s
  /\ reply (POST_todos req now1 now2) s
     = (if Py.truthy data && (is_scalar data || mentions "title" data)
        then {| content := error_body "Internal server error"; status := 500 |}
        else {| content := error_body "Missing required field: title";
                status := 400 |}).
Proof.
  intros Hj Hp Hd. unfold reply, after. unfold_views. rewrite Hj, Hp. cbn [negb].
  destruct (Py.truthy data); cbn [negb andb]; [|done].
  unfold Py.contains, Py.getitem, is_scalar, mentions.
  destruct data as [| | | |str|l|d]; try done; try (by destruct (Hd d)).
  - by destruct (Py.substring_of "title" str).
  - by destruct (existsb (Py.str_eq "title") l).
Qed.

Lemma create_todo_non_object_witness :
  status (reply (POST_todos (json_request (JStr "my title")) noon noon) initial) = 500
  /\ status (reply (POST_todos (json_request (JInt 0)) noon noon) initial) = 400
  /\ status (reply (POST_todos (json_request (JArr [JStr "x"])) noon noon) initial)
     = 400.
Proof.
  split_and!.
  - destruct (create_todo_non_object (json_request (JStr "my title")) noon noon
                initial (JStr "my title") eq_refl eq_refl) as [_ ->]; [done|].
    reflexivity.
  - destruct (create_todo_non_object (json_request (JInt 0)) noon noon
                initial (JInt 0) eq_refl eq_refl) as [_ ->]; [done|].
    reflexivity.
  - destruct (create_todo_non_object (json_request (JArr [JStr "x"])) noon noon
                initial (JArr [JStr "x"]) eq_refl eq_refl) as [_ ->]; [done|].
    reflexivity.
Defined.

Lemma copy_field_non_object todo_id key data s :
  (forall d, data <> JObj d) ->
  copy_field todo_id key data s
  = (if is_scalar data || mentions key data then inl TypeError else inr tt, s, []).
Proof.
  intros Hd. unfold copy_field, Py.contains, Py.getitem, is_scalar, mentions.
  unfold_monad.
  destruct data as [| | | |str|l|d]; try done; try (by destruct (Hd d)).
  - by destruct (Py.substring_of key str).
  - by destruct (existsb (Py.str_eq key) l).
Qed.

Lemma update_todo_non_object todo_id req now s old data :
  todos s !! todo_id = Some old ->
  is_json req = true ->
  payload req = Parsed data ->
  (forall d, data <> JObj d) ->
  (reply (PUT_todo todo_id req now) s, after (PUT_todo todo_id req now) s)
  = (if is_scalar data || mentions "title" data || mentions "description" data
        || mentions "completed" data
     then ({| content := error_body "Internal server error"; status := 500 |}, s)
     else ({| content := JObj (<["updated_at" := timestamp now]> old);
              status := 200 |},
           with_todo s todo_id (<["updated_at" := timestamp now]> old))).
Proof.
  intros H Hj Hp Hd. unfold reply, after. unfold_views. rewrite H.
  rewrite bool_decide_false by done. rewrite Hj, Hp. unfold_monad.
  rewrite !(copy_field_non_object _ _ _ _ Hd).
  destruct (is_scalar data); cbn [orb]; [done|].
  destruct (mentions "title" data); cbn [orb]; [done|].
  destruct (mentions "description" data); cbn [orb]; [done|].
  destruct (mentions "completed" data); cbn [orb]; [done|].
  rewrite (set_field_present _ _ _ _ _ H). unfold_monad.
  by rewrite with_todo_lookup.
Qed.

(** X12.  A PUT or a PATCH of an existing id whose JSON body is not an
    object: a scalar ([null], a boolean, a number), a string that has
    ["title"], ["description"] or ["completed"] as a substring and a list
    that has one of the three as an element are answered 500 and change
    nothing; any other string or list is answered 200 and only refreshes
    [updated_at]. *)
Theorem update_todo_non_object_body c todo_id req now s old data :
  c = PUT_todo todo_id req now \/ c = PATCH_todo todo_id req now ->
  todos s !! todo_id = Some old ->
  is_json req = true ->
  payload req = Parsed data ->
  (forall d, data <> JObj d) ->
  let raises :=
    is_scalar data || mentions "title" data || mentions "description" data
    || mentions "completed" data in
  reply c s
  = (if raises
     then {| content := error_body "Internal server error"; status := 500 |}
     else {| content := JObj (<["updated_at" := timestamp now]> old);
             status := 200 |})
  /\ after c s
     = (if raises then s
        else {| todos := <[todo_id := <["updated_at" := timestamp now]> old]> (todos s);
                next_id := next_id s |}).
Proof.
  intros Hc Hold Hj Hp Hd raises.
  assert (reply c s = reply (PUT_todo todo_id req now) s
          /\ after c s = after (PUT_todo todo_id req now) s) as [-> ->].
  { destruct Hc as [-> | ->]; [done|].
    by destruct (put_patch_same todo_id req now s) as [<- <-]. }
  pose proof (update_todo_non_object todo_id req now s old data Hold Hj Hp Hd) as E.
  fold raises in E. by destruct raises; apply pair_equal_spec in E as [-> ->].
Qed.

Lemma update_todo_non_object_body_witness :
  status (reply (PUT_todo 1 (json_request JNull) noon) one_todo) = 500
  /\ status (reply (PATCH_todo 1 (json_request (JStr "incomplete")) noon) one_todo)
     = 200
  /\ status (reply (PATCH_todo 1 (json_request (JStr "not completed")) noon) one_todo)
     = 500.
Proof.
  assert (todos one_todo !! 1 = Some milk_record) as H by (vm_compute; reflexivity).
  split_and!.
  - destruct (update_todo_non_object_body _ 1 (json_request JNull) noon one_todo
                milk_record JNull (or_introl eq_refl) H eq_refl eq_refl) as [-> _];
      [done | reflexivity].
  - destruct (update_todo_non_object_body _ 1 (json_request (JStr "incomplete"))
                noon one_todo milk_record (JStr "incomplete")
                (or_intror eq_refl) H eq_refl eq_refl) as [-> _];
      [done | reflexivity].
  - destruct (update_todo_non_object_body _ 1 (json_request (JStr "not completed"))
                noon one_todo milk_record (JStr "not completed")
                (or_intror eq_refl) H eq_refl eq_refl) as [-> _];
      [done | reflexivity].
Defined.

(** ** Status codes *)

Ltac listed := by apply (bool_decide_unpack _).
Ltac not_listed H :=
  repeat (apply elem_of_cons in H as [H|H]; [discriminate H|]);
  by apply elem_of_nil in H.

Lemma update_todo_status todo_id req now s :
  match todos s !! todo_id with
  | None => status (reply (PUT_todo todo_id req now) s) = 404
  | Some _ => status (reply (PUT_todo todo_id req now) s) ∈ [200; 400; 500]
  end.
Proof.
  destruct (todos s !! todo_id) as [old|] eqn:H.
  2: { by destruct (update_todo_absent todo_id req now s H) as [-> _]. }
  destruct (is_json req) eqn:Hj.
  2: { destruct (update_todo_not_json todo_id req now s old H Hj) as [-> _].
       cbn. listed. }
  destruct (payload req) as [description|data] eqn:Hp.
  { destruct (update_todo_unparsable todo_id req now s old _ H Hj Hp) as [-> _].
    cbn. listed. }
  destruct (not_object_dec data) as [[d ->]|Hd].
  - destruct (update_todo_object todo_id req now s old d H Hj Hp) as [-> _].
    cbn. listed.
  - destruct (update_todo_other todo_id req now s old data H Hj Hp Hd)
      as [[-> _]|[-> _]]; cbn; listed.
Qed.

(** X13.  Every answer of the six [/todos] routes carries one of the
    statuses 200, 201, 400, 404 and 500.  Only a POST is answered 201, and
    an answer is 404 exactly when the request names an id in its path that
    is not in the store: the lookup of the id comes before every other
    check. *)
Theorem status_codes c s :
  status (reply c s) ∈ [200; 201; 400; 404; 500]
  /\ (status (reply c s) = 201 -> exists req now1 now2, c = POST_todos req now1 now2)
  /\ (status (reply c s) = 404
      <-> exists todo_id, path_id c = Some todo_id /\ todos s !! todo_id = None).
Proof.
  assert (forall todo_id r,
            match todos s !! todo_id with
            | None => status r = 404
            | Some _ => status r ∈ [200; 400; 500]
            end ->
            status r ∈ [200; 201; 400; 404; 500]
            /\ status r <> 201
            /\ (status r = 404 <-> todos s !! todo_id = None)) as Hid.
  { intros todo_id r H. destruct (todos s !! todo_id).
    - split_and!.
      + revert H. generalize (status r). intros z Hz.
        repeat (apply elem_of_cons in Hz as [->|Hz]);
          [listed .. | by apply elem_of_nil in Hz].
      + intros E. rewrite E in H. not_listed H.
      + split; [|done]. intros E. rewrite E in H. not_listed H.
    - rewrite H. split_and!; [listed | done | done]. }
  assert (forall todo_id,
            (exists k, Some todo_id = Some k /\ todos s !! k = None)
            <-> todos s !! todo_id = None) as Hsome.
  { intros todo_id. split; [by intros (k & [= <-] & ?) | by exists todo_id]. }
  destruct c as [|todo_id|req now1 now2|todo_id req now|todo_id req now|todo_id];
    cbn [path_id]; rewrite ?Hsome.
  - destruct (get_todos_reply s) as [-> _]. cbn.
    split_and!; [listed | done |].
    split; [done | by intros (? & ? & _)].
  - destruct (Hid todo_id (reply (GET_todo todo_id) s)) as (? & ? & ?); [|done].
    destruct (todos s !! todo_id) as [t|] eqn:H.
    + destruct (get_todo_present todo_id s t H) as [-> _]. cbn. listed.
    + by destruct (get_todo_absent todo_id s H) as [-> _].
  - destruct (create_todo_outcome req now1 now2 s)
      as [[[H|H] _]|(d & title & _ & _ & _ & -> & _)]; try rewrite H; cbn;
      (split_and!; [listed | eauto
                   | split; [done | by intros (? & ? & _)]]).
  - destruct (Hid todo_id (reply (PUT_todo todo_id req now) s)) as (? & ? & ?);
      [apply update_todo_status | done].
  - destruct (put_patch_same todo_id req now s) as [<- _].
    destruct (Hid todo_id (reply (PUT_todo todo_id req now) s)) as (? & ? & ?);
      [apply update_todo_status | done].
  - destruct (Hid todo_id (reply (DELETE_todo todo_id) s)) as (? & ? & ?); [|done].
    destruct (todos s !! todo_id) as [t|] eqn:H.
    + destruct (delete_todo_present todo_id s t H) as [-> _]. cbn. listed.
    + by destruct (delete_todo_absent todo_id s H) as [-> _].
Qed.

Lemma status_codes_witness :
  status (reply (DELETE_todo 3) one_todo) = 404
  /\ status (reply (POST_todos (json_request buy_milk) noon noon) one_todo) = 201.
Proof.
  split.
  - destruct (status_codes (DELETE_todo 3) one_todo) as (_ & _ & H).
    apply H. exists 3. split; [reflexivity | vm_compute; reflexivity].
  - vm_compute. reflexivity.
Defined.

(** ** How the writes compose *)

Lemma merged_twice d now1 now2 old :
  merged d now2 (merged d now1 old) = merged d now2 old.
Proof.
  apply map_eq. intros k.
  destruct (decide (k ∈ ["title"; "description"; "completed"])) as [Hk|Hk].
  - rewrite !(merged_body_key _ _ _ k Hk). by destruct (d !! k).
  - destruct (decide (k = "updated_at")) as [->|Hne].
    + unfold merged. by rewrite !lookup_insert_eq.
    + assert (k ∉ ["title"; "description"; "completed"; "updated_at"]) as Hk'
        by set_solver.
      by rewrite !(merged_other_key _ _ _ k Hk').
Qed.

(** X14.  Sending the same object body to the same existing id twice, by
    PUT or by PATCH, leaves what sending it once at the second clock reading
    leaves, and is answered the same: a repeated update changes nothing but
    the stamp. *)
Theorem update_twice c1 c2 todo_id req now1 now2 s old d :
  c1 = PUT_todo todo_id req now1 \/ c1 = PATCH_todo todo_id req now1 ->
  c2 = PUT_todo todo_id req now2 \/ c2 = PATCH_todo todo_id req now2 ->
  todos s !! todo_id = Some old ->
  is_json req = true ->
  payload req = Parsed (JObj d) ->
  reply c2 (after c1 s) = reply c2 s
  /\ after c2 (after c1 s) = after c2 s.
Proof.
  intros Hc1 Hc2 Hold Hj Hp.
  assert (forall now s' old',
            todos s' !! todo_id = Some old' ->
            forall c, c = PUT_todo todo_id req now \/ c = PATCH_todo todo_id req now ->
            reply c s' = {| content := JObj (merged d now old'); status := 200 |}
            /\ after c s' = with_todo s' todo_id (merged d now old')) as Hupd.
  { intros now s' old' Hold' c [-> | ->].
    - by apply update_todo_object.
    - destruct (put_patch_same todo_id req now s') as [<- <-].
      by apply update_todo_object. }
  destruct (Hupd now1 s old Hold c1 Hc1) as [_ ->].
  destruct (Hupd now2 s old Hold c2 Hc2) as [-> ->].
  destruct (Hupd now2 (with_todo s todo_id (merged d now1 old)) (merged d now1 old)
              (with_todo_lookup _ _ _) c2 Hc2) as [-> ->].
  by rewrite merged_twice, with_todo_twice.
Qed.

Lemma update_twice_witness :
  after (PATCH_todo 1 (json_request completed_true) just_after_noon)
        (after (PUT_todo 1 (json_request completed_true) noon) one_todo)
  = after (PATCH_todo 1 (json_request completed_true) just_after_noon) one_todo.
Proof.
  apply (update_twice (PUT_todo 1 (json_request completed_true) noon)
           (PATCH_todo 1 (json_request completed_true) just_after_noon)
           1 (json_request completed_true) noon just_after_noon one_todo milk_record
           {[ "completed" := JBool true ]}).
  - by left.
  - by right.
  - vm_compute. reflexivity.
  - reflexivity.
  - reflexivity.
Defined.

(** X15.  A create that is answered 201, followed by a DELETE of the id it
    was given, puts the mapping back as it was, in a store whose keys lie
    below the counter; the counter stays one higher, so the id is spent. *)
Theorem create_then_delete req now1 now2 s :
  keys_below s ->
  status (reply (POST_todos req now1 now2) s) = 201 ->
  let s1 := after (POST_todos req now1 now2) s in
  status (reply (DELETE_todo (next_id s)) s1) = 200
  /\ todos (after (DELETE_todo (next_id s)) s1) = todos s
  /\ next_id (after (DELETE_todo (next_id s)) s1) = next_id s + 1.
Proof.
  intros Hs Hok s1. subst s1.
  destruct (create_todo_outcome req now1 now2 s)
    as [[[H|H] _]|(d & title & _ & _ & _ & _ & ->)];
    [rewrite H in Hok; discriminate .. |].
  set (t := new_todo (next_id s) title d now1 now2).
  destruct (delete_todo_present (next_id s)
              {| todos := <[next_id s := t]> (todos s); next_id := next_id s + 1 |} t)
    as [-> ->]; [apply lookup_insert_eq|].
  cbn. split_and!; [done | | done].
  rewrite delete_insert_eq. apply delete_id.
  destruct (todos s !! next_id s) eqn:Hk; [|done].
  assert (next_id s < next_id s) by (apply Hs; eauto). lia.
Qed.

Lemma create_then_delete_witness :
  todos (after (DELETE_todo 2)
               (after (POST_todos (json_request empty_title) noon noon) one_todo))
  = todos one_todo.
Proof.
  apply (create_then_delete (json_request empty_title) noon noon one_todo).
  - apply (run_keys_below initial [POST_todos (json_request buy_milk) noon noon]),
      initial_keys_below.
  - vm_compute. reflexivity.
Defined.

(** X16.  On an id that is in the store, DELETE returns in its [todo] field
    the body a GET of the id returned just before; a second DELETE of the
    id is answered 404 and leaves the store as the first one left it. *)
Theorem delete_twice todo_id s t :
  todos s !! todo_id = Some t ->
  content (reply (DELETE_todo todo_id) s)
  = JObj {[ "message" := JStr "Todo deleted successfully";
            "todo" := content (reply (GET_todo todo_id) s) ]}
  /\ reply (DELETE_todo todo_id) (after (DELETE_todo todo_id) s)
     = {| content := not_found todo_id; status := 404 |}
  /\ after (DELETE_todo todo_id) (after (DELETE_todo todo_id) s)
     = after (DELETE_todo todo_id) s.
Proof.
  intros H.
  destruct (get_todo_present todo_id s t H) as [-> _].
  destruct (delete_todo_present todo_id s t H) as [-> ->].
  split; [done|].
  apply delete_todo_absent. apply lookup_delete_eq.
Qed.

Lemma delete_twice_witness :
  status (reply (DELETE_todo 1) (after (DELETE_todo 1) one_todo)) = 404.
Proof.
  destruct (delete_twice 1 one_todo milk_record) as (_ & -> & _).
  - vm_compute. reflexivity.
  - reflexivity.
Defined.

(** ** Listing *)

(** X17.  The [todos] array that [GET /todos] returns holds the record of
    every stored id and nothing else, and [count] is its length. *)
Theorem list_holds_the_records s :
  exists l,
    listed_todos (reply GET_todos s) = Some l
    /\ listed_count (reply GET_todos s) = Some (Z.of_nat (length l))
    /\ forall x, x ∈ l <-> exists k t, todos s !! k = Some t /\ x = JObj t.
Proof.
  exists (JObj <$> (map_to_list (todos s)).*2).
  destruct (get_todos_reply s) as [-> _].
  unfold listed_todos, listed_count. cbn [content].
  split_and!.
  - by simplify_map_eq.
  - rewrite !length_fmap, length_map_to_list. by simplify_map_eq.
  - intros x. rewrite list_elem_of_fmap. split.
    + intros (t & -> & Ht). apply list_elem_of_fmap in Ht as ([k t'] & -> & Hkt).
      apply elem_of_map_to_list in Hkt. by exists k, t'.
    + intros (k & t & Hk & ->). exists t. split; [done|].
      apply list_elem_of_fmap. exists (k, t). split; [done|].
      by apply elem_of_map_to_list.
Qed.

(** ** The record a create builds *)

(** X18.  The record of a create that is answered 201 has exactly the six
    keys of a todo.  Its [id] is the counter and its two stamps are those of
    the clock readings, whatever ids and stamps the body carries; [title] is
    the title of the body; [description] and [completed] are those of the
    body when it has them, the empty string and [false] when it has not. *)
Theorem create_todo_defaults req now1 now2 s :
  status (reply (POST_todos req now1 now2) s) = 201 ->
  exists t,
    content (reply (POST_todos req now1 now2) s) = JObj t
    /\ todos (after (POST_todos req now1 now2) s) !! next_id s = Some t
    /\ dom t = todo_keys
    /\ t !! "id" = Some (JInt (next_id s))
    /\ t !! "title" = body_key req "title"
    /\ t !! "description"
       = Some (default (JStr EmptyString) (body_key req "description"))
    /\ t !! "completed" = Some (default (JBool false) (body_key req "completed"))
    /\ t !! "created_at" = Some (timestamp now1)
    /\ t !! "updated_at" = Some (timestamp now2).
Proof.
  intros Hok.
  destruct (create_todo_outcome req now1 now2 s)
    as [[[H|H] _]|(d & title & _ & Hp & Ht & -> & ->)];
    [rewrite H in Hok; discriminate .. |].
  exists (new_todo (next_id s) title d now1 now2).
  unfold body_key. rewrite Hp, Ht. cbn [content todos].
  split_and!; [done | apply lookup_insert_eq | apply new_todo_dom | apply new_todo_id
              | | | | apply new_todo_created_at | apply new_todo_updated_at];
    unfold new_todo; by simplify_map_eq.
Qed.

Lemma create_todo_defaults_witness :
  exists t,
    content (reply (POST_todos (json_request (JObj {[ "title" := JStr "Buy milk";
                                                      "id" := JInt 99 ]}))
                               noon noon) one_todo) = JObj t
    /\ t !! "id" = Some (JInt 2)
    /\ t !! "description" = Some (JStr EmptyString)
    /\ t !! "completed" = Some (JBool false).
Proof.
  destruct (create_todo_defaults
              (json_request (JObj {[ "title" := JStr "Buy milk"; "id" := JInt 99 ]}))
              noon noon one_todo)
    as (t & Hc & _ & _ & Hid & _ & Hd & Hcompleted & _).
  - vm_compute. reflexivity.
  - exists t. split_and!; [exact Hc | exact Hid | exact Hd | exact Hcompleted].
Defined.

(** ** The log of a request *)

Ltac envelope :=
  cbn [app fst snd status];
  first [ by exists []
        | eexists [_]; split_and!; [reflexivity | done | by eauto] ].

Lemma update_todo_logged todo_id req now s :
  exists operations,
    logged (PUT_todo todo_id req now) s
    = "incoming_request" :: operations ++ ["outgoing_response"]
    /\ (status (reply (PUT_todo todo_id req now) s) = 500 -> operations = [])
    /\ (status (reply (PUT_todo todo_id req now) s) <> 500 ->
        exists operation, operations = [operation]).
Proof.
  unfold logged, reply. unfold_views.
  destruct (todos s !! todo_id) as [old|] eqn:H.
  2: { rewrite bool_decide_true by done. envelope. }
  rewrite bool_decide_false by done.
  destruct (is_json req); cbn [negb]; [|envelope].
  destruct (payload req) as [description|data]; [envelope|].
  unfold_monad.
  destruct (not_object_dec data) as [[d ->]|Hd].
  - rewrite (copy_field_object _ _ _ _ _ H). unfold_monad.
    rewrite (copy_field_object _ _ _ _ _ (with_todo_lookup _ _ _)), with_todo_twice.
    unfold_monad.
    rewrite (copy_field_object _ _ _ _ _ (with_todo_lookup _ _ _)), with_todo_twice.
    unfold_monad.
    rewrite (set_field_present _ _ _ _ _ (with_todo_lookup _ _ _)), with_todo_twice.
    unfold_monad. rewrite with_todo_lookup. envelope.
  - destruct (copy_field_other todo_id "title" data s Hd) as [-> | ->];
      unfold_monad; [envelope|].
    destruct (copy_field_other todo_id "description" data s Hd) as [-> | ->];
      unfold_monad; [envelope|].
    destruct (copy_field_other todo_id "completed" data s Hd) as [-> | ->];
      unfold_monad; [envelope|].
    rewrite (set_field_present _ _ _ _ _ H). unfold_monad.
    rewrite with_todo_lookup. envelope.
Qed.

Lemma patch_todo_logged todo_id req now s :
  exists operations,
    logged (PATCH_todo todo_id req now) s
    = "incoming_request" :: operations ++ ["outgoing_response"]
    /\ (status (reply (PATCH_todo todo_id req now) s) = 500 -> operations = [])
    /\ (status (reply (PATCH_todo todo_id req now) s) <> 500 ->
        exists operation, operations = [operation]).
Proof.
  unfold logged, reply. unfold_views.
  destruct (todos s !! todo_id) as [old|] eqn:H.
  2: { rewrite bool_decide_true by done. envelope. }
  rewrite bool_decide_false by done.
  destruct (is_json req); cbn [negb]; [|envelope].
  destruct (payload req) as [description|data]; [envelope|].
  unfold_monad.
  destruct (not_object_dec data) as [[d ->]|Hd].
  - rewrite (copy_field_object _ _ _ _ _ H). unfold_monad.
    rewrite (copy_field_object _ _ _ _ _ (with_todo_lookup _ _ _)), with_todo_twice.
    unfold_monad.
    rewrite (copy_field_object _ _ _ _ _ (with_todo_lookup _ _ _)), with_todo_twice.
    unfold_monad.
    rewrite (set_field_present _ _ _ _ _ (with_todo_lookup _ _ _)), with_todo_twice.
    unfold_monad. rewrite with_todo_lookup. envelope.
  - destruct (copy_field_other todo_id "title" data s Hd) as [-> | ->];
      unfold_monad; [envelope|].
    destruct (copy_field_other todo_id "description" data s Hd) as [-> | ->];
      unfold_monad; [envelope|].
    destruct (copy_field_other todo_id "completed" data s Hd) as [-> | ->];
      unfold_monad; [envelope|].
    rewrite (set_field_present _ _ _ _ _ H). unfold_monad.
    rewrite with_todo_lookup. envelope.
Qed.

Lemma create_todo_logged req now1 now2 s :
  exists operations,
    logged (POST_todos req now1 now2) s
    = "incoming_request" :: operations ++ ["outgoing_response"]
    /\ (status (reply (POST_todos req now1 now2) s) = 500 -> operations = [])
    /\ (status (reply (POST_todos req now1 now2) s) <> 500 ->
        exists operation, operations = [operation]).
Proof.
  unfold logged, reply. unfold_views.
  destruct (is_json req); cbn [negb]; [|envelope].
  destruct (payload req) as [description|data]; [envelope|].
  unfold_monad.
  destruct (Py.truthy data); cbn [negb]; [|envelope].
  destruct (Py.contains "title" data) as [e|[]]; cbn [negb];
    [destruct e; envelope | | envelope].
  destruct (Py.getitem data "title") as [e|title]; [destruct e; envelope|].
  destruct (Py.get data "description" (JStr EmptyString)) as [e|description];
    [destruct e; envelope|].
  destruct (Py.get data "completed" (JBool false)) as [e|completed];
    [destruct e; envelope|].
  envelope.
Qed.

(** X19.  The log of every request to a [/todos] route opens with
    [incoming_request] and closes with [outgoing_response].  Between the two
    there is exactly one operation when the answer is not a 500 (the
    operation of the view, or [http_error] for a body that does not parse),
    and none when it is: an unhandled exception is reported by
    [logger.error], not by [log_operation]. *)
Theorem request_log_envelope c s :
  exists operations,
    logged c s = "incoming_request" :: operations ++ ["outgoing_response"]
    /\ (status (reply c s) = 500 -> operations = [])
    /\ (status (reply c s) <> 500 -> exists operation, operations = [operation]).
Proof.
  destruct c as [|todo_id|req now1 now2|todo_id req now|todo_id req now|todo_id].
  - unfold logged, reply. unfold_views. envelope.
  - unfold logged, reply. unfold_views. destruct (todos s !! todo_id); envelope.
  - apply create_todo_logged.
  - apply update_todo_logged.
  - apply patch_todo_logged.
  - unfold logged, reply. unfold_views. destruct (todos s !! todo_id); envelope.
Qed.

Lemma request_log_envelope_witness :
  exists operations,
    logged (PUT_todo 1 (json_request JNull) noon) one_todo
    = "incoming_request" :: operations ++ ["outgoing_response"]
    /\ operations = [].
Proof.
  destruct (request_log_envelope (PUT_todo 1 (json_request JNull) noon) one_todo)
    as (operations & Hl & H500 & _).
  exists operations. split; [exact Hl|].
  apply H500. vm_compute. reflexivity.
Defined.

(** ** Stamps *)

Lemma digit_of_char (d : N) :
  (d < 10)%N -> digit_of (pretty_N_char d) = Some (Z.of_N d).
Proof.
  intros H.
  assert (d = 0 \/ d = 1 \/ d = 2 \/ d = 3 \/ d = 4 \/ d = 5 \/ d = 6 \/ d = 7
          \/ d = 8 \/ d = 9)%N as Hd by lia.
  repeat (destruct Hd as [->|Hd]; [reflexivity|]). by subst.
Qed.

Lemma append_cons c (a b : string) : String c a +:+ b = String c (a +:+ b).
Proof. reflexivity. Qed.

Lemma read_digit acc c d s :
  digit_of c = Some d -> read_number acc (String c s) = read_number (acc * 10 + d) s.
Proof. intros H. cbn. by rewrite H. Qed.

Lemma read_stop acc c s :
  digit_of c = None -> read_number acc (String c s) = (acc, String c s).
Proof. intros H. cbn. by rewrite H. Qed.

Lemma read_pretty_go (x : N) s rest :
  read_number 0 (pretty_N_go x s +:+ rest) = read_number (Z.of_N x) (s +:+ rest).
Proof.
  revert s. induction (N.lt_wf_0 x) as [x _ IH]; intros s.
  destruct (decide (x = 0)%N) as [->|Hx]; [by rewrite pretty_N_go_0|].
  rewrite pretty_N_go_step by lia.
  rewrite IH by (apply N.div_lt; lia).
  rewrite append_cons, (read_digit _ _ _ _ (digit_of_char _ (N.mod_lt x 10 ltac:(lia)))).
  f_equal. rewrite (N.div_mod x 10) at 3 by lia. lia.
Qed.

Lemma read_pretty (z : Z) rest :
  0 <= z ->
  read_number 0 (pretty z +:+ rest) = read_number z rest.
Proof.
  intros Hz. destruct z as [|p|p]; [done| |lia].
  unfold pretty, pretty_Z, pretty, pretty_positive, pretty, pretty_N.
  rewrite decide_False by done. apply read_pretty_go.
Qed.

Lemma read_zeros n s : read_number 0 (zeros n +:+ s) = read_number 0 s.
Proof.
  induction n as [|n IH]; [done|].
  change (zeros (S n) +:+ s) with (String "0" (zeros n +:+ s)).
  by rewrite (read_digit 0 "0" 0).
Qed.

Lemma append_assoc (a b c : string) : (a +:+ b) +:+ c = a +:+ (b +:+ c).
Proof. induction a as [|x a IH]; [done|]. by rewrite !append_cons, IH. Qed.

Lemma read_zfill width z c rest :
  0 <= z -> digit_of c = None ->
  read_number 0 (zfill width z +:+ String c rest) = (z, String c rest).
Proof.
  intros Hz Hc. unfold zfill.
  rewrite append_assoc, read_zeros, read_pretty by done. by apply read_stop.
Qed.

Lemma append_nil_l (a : string) : EmptyString +:+ a = a.
Proof. reflexivity. Qed.

Lemma parse_timestamp_isoformat t :
  clock_reading t -> parse_timestamp (isoformat t +:+ "Z") = Some t.
Proof.
  destruct t as [y mo d h mi sec us]. unfold clock_reading, dt_fields.
  cbn [year month day hour minute second microsecond].
  rewrite !Forall_cons. intros (? & ? & ? & ? & ? & ? & ? & _).
  unfold isoformat, parse_timestamp.
  cbn [year month day hour minute second microsecond].
  destruct (us =? 0) eqn:Hus;
    rewrite !append_assoc, ?append_cons, ?append_nil_l;
    repeat (rewrite read_zfill by done; cbn [expect mbind option_bind];
            rewrite ?decide_True by done; cbn [mbind option_bind]).
  - apply Z.eqb_eq in Hus as ->. reflexivity.
  - reflexivity.
Qed.

Lemma timestamp_inj t1 t2 :
  clock_reading t1 -> clock_reading t2 -> timestamp t1 = timestamp t2 -> t1 = t2.
Proof.
  intros H1 H2 [= E].
  apply parse_timestamp_isoformat in H1, H2. congruence.
Qed.

(** X20.  A stamp determines the reading of the clock it was printed from:
    two readings without negative fields that print the same stamp are the
    same reading.  So the record of a create that is answered 201 has equal
    [created_at] and [updated_at] exactly when the two readings of the
    clock were equal. *)
Theorem stamps_equal_iff :
  (forall t1 t2,
     clock_reading t1 -> clock_reading t2 ->
     timestamp t1 = timestamp t2 -> t1 = t2)
  /\ (forall req now1 now2 s,
        clock_reading now1 ->
        clock_reading now2 ->
        status (reply (POST_todos req now1 now2) s) = 201 ->
        (stamps_equal (reply (POST_todos req now1 now2) s) <-> now1 = now2)).
Proof.
  split; [apply timestamp_inj|].
  intros req now1 now2 s H1 H2 Hok.
  destruct (create_todo_outcome req now1 now2 s)
    as [[[H|H] _]|(d & title & _ & _ & _ & -> & _)];
    [rewrite H in Hok; discriminate .. |].
  unfold stamps_equal. cbn [content].
  rewrite new_todo_created_at, new_todo_updated_at.
  split; [|by intros ->].
  intros [= E]. apply timestamp_inj; [done | done |]. unfold timestamp. by rewrite E.
Qed.

Lemma stamps_equal_iff_witness :
  stamps_equal (reply (POST_todos (json_request buy_milk) noon noon) initial).
Proof.
  destruct stamps_equal_iff as [_ H].
  apply (H (json_request buy_milk) noon noon initial).
  - repeat constructor; discriminate.
  - repeat constructor; discriminate.
  - vm_compute. reflexivity.
  - reflexivity.
Defined.
